(** * Repository explorer: a shallow embedding of [RepositoryExplorer.tsx]

    The component keeps its data in React state cells, talks to the GitHub
    REST API through Octokit and reports failures in an error banner.  The
    embedding below follows the revision of the component that has branch
    selection, the expandable file tree and in-browser editing.

    - JavaScript strings are sequences of UTF-16 code units ([list N]).
    - [Map<string, RepoFile[]>] is a [gmap], [Set<string>] a [gset].
    - An [async] handler is a computation in a state-and-exception monad
      over the component's state cells, the editor ref, the console and the
      log of exchanges with the API.  A handler reads the state cells through
      the closure of the render it was created in and writes them through the
      setters, so every handler takes the render's snapshot as an argument.
    - The API is a deterministic oracle that may answer according to the
      whole history of earlier exchanges.
    - Handlers run one at a time, each to completion: an [await] is a round
      trip inside the handler.  Two handlers in flight at once are outside
      this embedding; in particular [new Map(prev.set(path, files))], which
      also updates the map held by older renders, is the insertion into the
      current map.

    The earlier revision of the component, which lists one directory at a
    time under breadcrumbs, is embedded in the same way in [PathExplorer]. *)

From Stdlib Require Import Strings.String Strings.Ascii NArith ZArith Lia.
From stdpp Require Import base option list gmap.

Local Open Scope N_scope.

(** ** JavaScript strings *)

Abbreviation JsString := (list N).

(** A string literal of the source, as code units. *)
Fixpoint js (s : string) : JsString :=
  match s with
  | EmptyString => []
  | String c s' => N_of_ascii c :: js s'
  end.
Arguments js : simpl never.

(** [if (s)], [s || d], [!s] on strings: the empty string is falsy. *)
Definition truthy (s : JsString) : bool :=
  match s with [] => false | _ :: _ => true end.

(** [o || d] where [o] may be [undefined]. *)
Definition orElse (o : option JsString) (d : JsString) : JsString :=
  match o with
  | Some s => if truthy s then s else d
  | None => d
  end.

(** Values that [throw] can raise: an [Error] instance carries a message,
    anything else fails the [err instanceof Error] test. *)
Inductive Thrown : Type :=
  | ErrorObj (message : JsString)
  | NonError.

Inductive Outcome (A : Type) : Type :=
  | Return (a : A)
  | Throw (e : Thrown).
Arguments Return {A} a.
Arguments Throw {A} e.

(** ** Platform functions used by the component *)

Module Platform.

(** The [DOMException] named [InvalidCharacterError] that [btoa] and [atob]
    raise.  It is an [Error] instance; the text of its [message] is the
    platform's own and differs between browsers and between the two
    functions, so each function takes the text its platform uses. *)
Definition invalidCharacterError (message : JsString) : Thrown :=
  ErrorObj message.

(** The base64 alphabet: sextet to code unit. *)
Definition b64char (i : N) : N :=
  if i <? 26 then 65 + i
  else if i <? 52 then 97 + (i - 26)
  else if i <? 62 then 48 + (i - 52)
  else if i =? 62 then 43
  else 47.

(** Code unit to sextet, [None] outside the alphabet. *)
Definition b64index (c : N) : option N :=
  if (65 <=? c) && (c <=? 90) then Some (c - 65)
  else if (97 <=? c) && (c <=? 122) then Some (c - 71)
  else if (48 <=? c) && (c <=? 57) then Some (c + 4)
  else if c =? 43 then Some 62
  else if c =? 47 then Some 63
  else None.

Fixpoint encodeBytes (bs : list N) : list N :=
  match bs with
  | [] => []
  | [a] => [b64char (a / 4); b64char (a mod 4 * 16); 61; 61]
  | [a; b] =>
      [b64char (a / 4); b64char (a mod 4 * 16 + b / 16);
       b64char (b mod 16 * 4); 61]
  | a :: b :: c :: rest =>
      b64char (a / 4) :: b64char (a mod 4 * 16 + b / 16)
      :: b64char (b mod 16 * 4 + c / 64) :: b64char (c mod 64)
      :: encodeBytes rest
  end.

Definition isLatin1 (s : JsString) : bool := forallb (fun c => c <=? 255) s.

(** [btoa]: every code unit must be at most U+00FF, otherwise the call
    throws; the result is padded base64. *)
Definition btoa (message : JsString) (s : JsString) : Outcome JsString :=
  if isLatin1 s then Return (encodeBytes s)
  else Throw (invalidCharacterError message).

Definition isAsciiWhitespace (c : N) : bool :=
  (c =? 9) || (c =? 10) || (c =? 12) || (c =? 13) || (c =? 32).

(** Drop one or two trailing [=] of a string whose length is a multiple
    of four. *)
Definition stripPadding (s : list N) : list N :=
  if (N.of_nat (length s) mod 4 =? 0)
  then match rev s with
       | 61 :: 61 :: r => rev r
       | 61 :: r => rev r
       | _ => s
       end
  else s.

Fixpoint sextets (s : list N) : option (list N) :=
  match s with
  | [] => Some []
  | c :: s' =>
      match b64index c, sextets s' with
      | Some i, Some l => Some (i :: l)
      | _, _ => None
      end
  end.

Fixpoint decodeSextets (l : list N) : list N :=
  match l with
  | p :: q :: r :: s :: rest =>
      (p * 4 + q / 16) :: (q mod 16 * 16 + r / 4) :: (r mod 4 * 64 + s)
      :: decodeSextets rest
  | [p; q; r] => [p * 4 + q / 16; q mod 16 * 16 + r / 4]
  | [p; q] => [p * 4 + q / 16]
  | _ => []
  end.

(** [atob]: forgiving base64 decoding. *)
Definition atob (message : JsString) (s : JsString) : Outcome JsString :=
  let data := stripPadding (filter (fun c => isAsciiWhitespace c = false) s) in
  if N.of_nat (length data) mod 4 =? 1
  then Throw (invalidCharacterError message)
  else match sextets data with
       | Some l => Return (decodeSextets l)
       | None => Throw (invalidCharacterError message)
       end.

(** White space and line terminators removed by [String.prototype.trim]. *)
Definition isWhiteSpace (c : N) : bool :=
  ((9 <=? c) && (c <=? 13)) || (c =? 32) || (c =? 160) || (c =? 5760)
  || ((8192 <=? c) && (c <=? 8202)) || (c =? 8232) || (c =? 8233)
  || (c =? 8239) || (c =? 8287) || (c =? 12288) || (c =? 65279).

Fixpoint trimStart (s : JsString) : JsString :=
  match s with
  | c :: s' => if isWhiteSpace c then trimStart s' else s
  | [] => []
  end.

Definition trimEnd (s : JsString) : JsString := rev (trimStart (rev s)).

Definition trim (s : JsString) : JsString := trimEnd (trimStart s).

(** [s.replace(/\n/g, '')] *)
Definition removeNewlines (s : JsString) : JsString :=
  filter (fun c => c ≠ 10) s.

End Platform.

(** ** Data model: mirrors of the REST resources *)

Inductive EntryType : Type := file | dir.

#[global] Instance EntryType_eq_dec : EqDecision EntryType.
Proof. solve_decision. Defined.

(** The [type] string of an entry. *)
Definition typeName (t : EntryType) : JsString :=
  match t with file => js "file" | dir => js "dir" end.

Module RepoFile.
Record t : Type := mk {
  name : JsString;
  path : JsString;
  type : EntryType;
  size : option N;
  sha : JsString;
  download_url : option JsString;
  url : JsString
}.
#[global] Instance t_eq_dec : EqDecision t.
Proof. solve_decision. Defined.
End RepoFile.

Module FileContent.
Record t : Type := mk {
  name : JsString;
  path : JsString;
  content : JsString;
  encoding : JsString;
  size : N;
  type : JsString;
  sha : JsString
}.
End FileContent.

Module GitHubFileResponse.
Record t : Type := mk {
  name : JsString;
  path : JsString;
  type : EntryType;
  content : option JsString;
  encoding : option JsString;
  size : N;
  sha : JsString
}.
End GitHubFileResponse.

Module Branch.
Record t : Type := mk {
  name : JsString;
  commit_sha : JsString;
  protected : bool
}.
End Branch.

(** ** The component's state cells ([useState]) *)

Record State : Type := mkState {
  owner : JsString;
  repo : JsString;
  files : list RepoFile.t;
  selectedFile : option FileContent.t;
  loading : bool;
  error : option JsString;
  isEditing : bool;
  editedContent : JsString;
  commitMessage : JsString;
  saveLoading : bool;
  branches : list Branch.t;
  selectedBranch : JsString;
  branchLoading : bool;
  expandedFolders : gset JsString;
  folderContents : gmap JsString (list RepoFile.t);
  isMdxEditorMode : bool
}.

(** Record updates, one per state cell that has a setter. *)
Definition with_files (v : list RepoFile.t) (s : State) : State :=
  mkState (owner s) (repo s) v (selectedFile s) (loading s) (error s)
    (isEditing s) (editedContent s) (commitMessage s) (saveLoading s)
    (branches s) (selectedBranch s) (branchLoading s) (expandedFolders s)
    (folderContents s) (isMdxEditorMode s).
Definition with_selectedFile (v : option FileContent.t) (s : State) : State :=
  mkState (owner s) (repo s) (files s) v (loading s) (error s) (isEditing s)
    (editedContent s) (commitMessage s) (saveLoading s) (branches s)
    (selectedBranch s) (branchLoading s) (expandedFolders s)
    (folderContents s) (isMdxEditorMode s).
Definition with_loading (v : bool) (s : State) : State :=
  mkState (owner s) (repo s) (files s) (selectedFile s) v (error s)
    (isEditing s) (editedContent s) (commitMessage s) (saveLoading s)
    (branches s) (selectedBranch s) (branchLoading s) (expandedFolders s)
    (folderContents s) (isMdxEditorMode s).
Definition with_error (v : option JsString) (s : State) : State :=
  mkState (owner s) (repo s) (files s) (selectedFile s) (loading s) v
    (isEditing s) (editedContent s) (commitMessage s) (saveLoading s)
    (branches s) (selectedBranch s) (branchLoading s) (expandedFolders s)
    (folderContents s) (isMdxEditorMode s).
Definition with_isEditing (v : bool) (s : State) : State :=
  mkState (owner s) (repo s) (files s) (selectedFile s) (loading s) (error s)
    v (editedContent s) (commitMessage s) (saveLoading s) (branches s)
    (selectedBranch s) (branchLoading s) (expandedFolders s)
    (folderContents s) (isMdxEditorMode s).
Definition with_editedContent (v : JsString) (s : State) : State :=
  mkState (owner s) (repo s) (files s) (selectedFile s) (loading s) (error s)
    (isEditing s) v (commitMessage s) (saveLoading s) (branches s)
    (selectedBranch s) (branchLoading s) (expandedFolders s)
    (folderContents s) (isMdxEditorMode s).
Definition with_commitMessage (v : JsString) (s : State) : State :=
  mkState (owner s) (repo s) (files s) (selectedFile s) (loading s) (error s)
    (isEditing s) (editedContent s) v (saveLoading s) (branches s)
    (selectedBranch s) (branchLoading s) (expandedFolders s)
    (folderContents s) (isMdxEditorMode s).
Definition with_saveLoading (v : bool) (s : State) : State :=
  mkState (owner s) (repo s) (files s) (selectedFile s) (loading s) (error s)
    (isEditing s) (editedContent s) (commitMessage s) v (branches s)
    (selectedBranch s) (branchLoading s) (expandedFolders s)
    (folderContents s) (isMdxEditorMode s).
Definition with_branches (v : list Branch.t) (s : State) : State :=
  mkState (owner s) (repo s) (files s) (selectedFile s) (loading s) (error s)
    (isEditing s) (editedContent s) (commitMessage s) (saveLoading s) v
    (selectedBranch s) (branchLoading s) (expandedFolders s)
    (folderContents s) (isMdxEditorMode s).
Definition with_selectedBranch (v : JsString) (s : State) : State :=
  mkState (owner s) (repo s) (files s) (selectedFile s) (loading s) (error s)
    (isEditing s) (editedContent s) (commitMessage s) (saveLoading s)
    (branches s) v (branchLoading s) (expandedFolders s) (folderContents s)
    (isMdxEditorMode s).
Definition with_branchLoading (v : bool) (s : State) : State :=
  mkState (owner s) (repo s) (files s) (selectedFile s) (loading s) (error s)
    (isEditing s) (editedContent s) (commitMessage s) (saveLoading s)
    (branches s) (selectedBranch s) v (expandedFolders s) (folderContents s)
    (isMdxEditorMode s).
Definition with_expandedFolders (v : gset JsString) (s : State) : State :=
  mkState (owner s) (repo s) (files s) (selectedFile s) (loading s) (error s)
    (isEditing s) (editedContent s) (commitMessage s) (saveLoading s)
    (branches s) (selectedBranch s) (branchLoading s) v (folderContents s)
    (isMdxEditorMode s).
Definition with_folderContents (v : gmap JsString (list RepoFile.t)) (s : State) : State :=
  mkState (owner s) (repo s) (files s) (selectedFile s) (loading s) (error s)
    (isEditing s) (editedContent s) (commitMessage s) (saveLoading s)
    (branches s) (selectedBranch s) (branchLoading s) (expandedFolders s) v
    (isMdxEditorMode s).
Definition with_isMdxEditorMode (v : bool) (s : State) : State :=
  mkState (owner s) (repo s) (files s) (selectedFile s) (loading s) (error s)
    (isEditing s) (editedContent s) (commitMessage s) (saveLoading s)
    (branches s) (selectedBranch s) (branchLoading s) (expandedFolders s)
    (folderContents s) v.

(** ** The REST client *)

Module ListBranches.
Record params : Type := mk { owner : JsString; repo : JsString }.
End ListBranches.

Module GetContent.
Record params : Type := mk {
  owner : JsString;
  repo : JsString;
  path : JsString;
  ref : JsString
}.
End GetContent.

Module CreateOrUpdateFileContents.
Record params : Type := mk {
  owner : JsString;
  repo : JsString;
  path : JsString;
  message : JsString;
  content : JsString;
  sha : JsString;
  branch : JsString
}.
End CreateOrUpdateFileContents.

(** A request as it leaves the client: the [auth] option of the Octokit
    instance that sends it, the endpoint and its parameters. *)
Inductive Request : Type :=
  | GET_branches (auth : option JsString) (p : ListBranches.params)
  | GET_contents (auth : option JsString) (p : GetContent.params)
  | PUT_contents (auth : option JsString) (p : CreateOrUpdateFileContents.params).

(** [response.data] of the contents endpoint: an array for a directory, a
    single object otherwise. *)
Inductive ContentData : Type :=
  | Listing (l : list RepoFile.t)
  | Single (f : GitHubFileResponse.t).

Inductive Reply : Type :=
  | Failed (e : Thrown)
  | BranchList (l : list Branch.t)
  | Content (d : ContentData)
  | Committed.

Record Exchange : Type := mkExchange { request : Request; reply : Reply }.

(** The API: each endpoint answers from the history of exchanges (most
    recent first) and the request, or rejects with a thrown value. *)
Record Network : Type := mkNetwork {
  net_listBranches :
    list Exchange -> option JsString -> ListBranches.params ->
    Outcome (list Branch.t);
  net_getContent :
    list Exchange -> option JsString -> GetContent.params ->
    Outcome ContentData;
  net_createOrUpdateFileContents :
    list Exchange -> option JsString -> CreateOrUpdateFileContents.params ->
    Outcome unit
}.

(** What the page is given by its surroundings: the variables of
    [process.env] that the build inlines, and the texts that the platform
    puts in the [message] of the exceptions of [btoa] and [atob]. *)
Record Env : Type := mkEnv {
  NEXT_PUBLIC_GITHUB_OWNER : option JsString;
  NEXT_PUBLIC_GITHUB_REPO : option JsString;
  NEXT_PUBLIC_GITHUB_TOKEN : option JsString;
  btoaErrorMessage : JsString;
  atobErrorMessage : JsString
}.

(** ** Worlds and handler computations *)

(** Everything a handler can touch: the state cells, the MDX editor behind
    [mdxEditorRef], the console and the exchanges with the API, most recent
    first.

    The editor ([ForwardRefEditor], a wrapper of a library component) is not
    part of the component.  Of the editor the component only reads
    [mdxEditorRef.current] and [getMarkdown()], and calls [setMarkdown(v)].
    [mdxEditorRef] is [None] while no editor is mounted and otherwise holds
    what [getMarkdown()] returns at present; [editorCalls] lists the
    arguments of the calls of [setMarkdown], most recent first.  What the
    editor makes of its [markdown] property, of a call of [setMarkdown] and
    of the user's typing is the editor's business: every change of what
    [getMarkdown()] returns is an event of the environment. *)
Record World : Type := mkWorld {
  state : State;
  mdxEditorRef : option JsString;
  editorCalls : list JsString;
  console : list (JsString * Thrown);
  exchanges : list Exchange
}.

Definition M (A : Type) : Type := World -> Outcome A * World.

Definition ret {A} (a : A) : M A := fun w => (Return a, w).

Definition bind {A B} (m : M A) (k : A -> M B) : M B :=
  fun w =>
    match m w with
    | (Return a, w') => k a w'
    | (Throw e, w') => (Throw e, w')
    end.

Declare Scope handler_scope.
Delimit Scope handler_scope with handler.
Notation "x <- m ;; k" := (bind m (fun x => k))
  (at level 100, m at next level, right associativity) : handler_scope.
Notation "m ;; k" := (bind m (fun _ => k))
  (at level 100, right associativity) : handler_scope.
Local Open Scope handler_scope.

(** A synchronous call that may throw. *)
Definition lift {A} (o : Outcome A) : M A := fun w => (o, w).

(** [try { body } catch (err) { handler }] *)
Definition tryCatch (body : M unit) (handler : Thrown -> M unit) : M unit :=
  fun w =>
    match body w with
    | (Return a, w') => (Return a, w')
    | (Throw e, w') => handler e w'
    end.

(** [try { body } catch (err) { handler } finally { fin }] *)
Definition tryCatchFinally (body : M unit) (handler : Thrown -> M unit)
    (fin : M unit) : M unit :=
  fun w =>
    let (r, w1) := tryCatch body handler w in
    match fin w1 with
    | (Return _, w2) => (r, w2)
    | (Throw e, w2) => (Throw e, w2)
    end.

Definition modify (f : State -> State) : M unit :=
  fun w =>
    (Return tt,
     mkWorld (f (state w)) (mdxEditorRef w) (editorCalls w) (console w)
       (exchanges w)).

Definition readRef : M (option JsString) := fun w => (Return (mdxEditorRef w), w).

(** The environment changes what the editor holds. *)
Definition writeRef (r : option JsString) : M unit :=
  fun w =>
    (Return tt, mkWorld (state w) r (editorCalls w) (console w) (exchanges w)).

(** [mdxEditorRef.current.setMarkdown(value)] *)
Definition setMarkdown (value : JsString) : M unit :=
  fun w =>
    (Return tt,
     mkWorld (state w) (mdxEditorRef w) (value :: editorCalls w) (console w)
       (exchanges w)).

(** [console.error(msg, err)] *)
Definition consoleError (msg : JsString) (err : Thrown) : M unit :=
  fun w =>
    (Return tt,
     mkWorld (state w) (mdxEditorRef w) (editorCalls w)
       ((msg, err) :: console w) (exchanges w)).

(** One awaited round trip: the exchange is logged with its reply, a
    rejection is rethrown in the handler. *)
Definition roundTrip {A} (rq : Request) (inj : A -> Reply)
    (answer : list Exchange -> Outcome A) : M A :=
  fun w =>
    let o := answer (exchanges w) in
    let rp := match o with Return a => inj a | Throw e => Failed e end in
    (o, mkWorld (state w) (mdxEditorRef w) (editorCalls w) (console w)
          (mkExchange rq rp :: exchanges w)).

(** The setters of the state cells. *)
Definition setFiles v := modify (with_files v).
Definition setSelectedFile v := modify (with_selectedFile v).
Definition setLoading v := modify (with_loading v).
Definition setError v := modify (with_error v).
Definition setIsEditing v := modify (with_isEditing v).
Definition setEditedContent v := modify (with_editedContent v).
Definition setCommitMessage v := modify (with_commitMessage v).
Definition setSaveLoading v := modify (with_saveLoading v).
Definition setBranches v := modify (with_branches v).
Definition setSelectedBranch v := modify (with_selectedBranch v).
Definition setBranchLoading v := modify (with_branchLoading v).
Definition setExpandedFolders v := modify (with_expandedFolders v).
Definition setIsMdxEditorMode v := modify (with_isMdxEditorMode v).
(** [setFolderContents] with an updater [prev => ...]; a plain value is the
    constant updater. *)
Definition setFolderContents
    (f : gmap JsString (list RepoFile.t) -> gmap JsString (list RepoFile.t)) :=
  modify (fun s => with_folderContents (f (folderContents s)) s).

(** ** The component *)

Section RepositoryExplorer.

Variable env : Env.
Variable net : Network.

Definition token : JsString := orElse (NEXT_PUBLIC_GITHUB_TOKEN env) [].

(** The initial values of the [owner] and [repo] cells, which have no
    setter. *)
Definition configuredOwner : JsString :=
  orElse (NEXT_PUBLIC_GITHUB_OWNER env) (js "B0llu").
Definition configuredRepo : JsString :=
  orElse (NEXT_PUBLIC_GITHUB_REPO env) (js "ocktokit-poc").

(** The state cells of the first render. *)
Definition initialState : State :=
  {| owner := configuredOwner;
     repo := configuredRepo;
     files := [];
     selectedFile := None;
     loading := false;
     error := None;
     isEditing := false;
     editedContent := [];
     commitMessage := [];
     saveLoading := false;
     branches := [];
     selectedBranch := js "main";
     branchLoading := false;
     expandedFolders := ∅;
     folderContents := ∅;
     isMdxEditorMode := false |}.

Definition initialWorld : World :=
  {| state := initialState; mdxEditorRef := None; editorCalls := [];
     console := []; exchanges := [] |}.

(** [new Octokit({ auth: token || undefined })], identified by its [auth]. *)
Definition createOctokitInstance : option JsString :=
  if truthy token then Some token else None.

Definition listBranches (octokit : option JsString) (p : ListBranches.params)
    : M (list Branch.t) :=
  roundTrip (GET_branches octokit p) BranchList
    (fun h => net_listBranches net h octokit p).

Definition getContent (octokit : option JsString) (p : GetContent.params)
    : M ContentData :=
  roundTrip (GET_contents octokit p) Content
    (fun h => net_getContent net h octokit p).

Definition createOrUpdateFileContents (octokit : option JsString)
    (p : CreateOrUpdateFileContents.params) : M unit :=
  roundTrip (PUT_contents octokit p) (fun _ => Committed)
    (fun h => net_createOrUpdateFileContents net h octokit p).

(** [err instanceof Error ? err.message : fallback] *)
Definition errorMessage (err : Thrown) (fallback : JsString) : JsString :=
  match err with
  | ErrorObj m => m
  | NonError => fallback
  end.

Definition fetchBranches (r : State) : M unit :=
  tryCatchFinally
    (setBranchLoading true ;;
     setError None ;;
     let octokit := createOctokitInstance in
     data <- listBranches octokit
               {| ListBranches.owner := owner r; ListBranches.repo := repo r |} ;;
     setBranches data ;;
     let branchNames := map Branch.name data in
     if negb (bool_decide (selectedBranch r ∈ branchNames)) then
       let defaultBranch :=
         match
           List.find (fun name => bool_decide (name = js "main")
                                  || bool_decide (name = js "master"))
             branchNames
         with
         | Some name => Some name
         | None => head branchNames
         end in
       match defaultBranch with
       | Some b => if truthy b then setSelectedBranch b else ret tt
       | None => ret tt
       end
     else ret tt)
    (fun err =>
       setError (Some (errorMessage err (js "Failed to fetch branches"))))
    (setBranchLoading false).

Definition fetchFolderContents (r : State) (folderPath : JsString) : M unit :=
  tryCatch
    (let octokit := createOctokitInstance in
     data <- getContent octokit
               {| GetContent.owner := owner r; GetContent.repo := repo r;
                  GetContent.path := folderPath;
                  GetContent.ref := selectedBranch r |} ;;
     match data with
     | Listing l => setFolderContents (fun prev => <[folderPath := l]> prev)
     | Single _ => ret tt
     end)
    (fun err =>
       consoleError (js "Failed to fetch contents for " ++ folderPath ++ js ":")
         err).

(** The snapshot built from a file response and its decoded content. *)
Definition fileContentOf (fileData : GitHubFileResponse.t) (content : JsString)
    : FileContent.t :=
  {| FileContent.name := GitHubFileResponse.name fileData;
     FileContent.path := GitHubFileResponse.path fileData;
     FileContent.content := content;
     FileContent.encoding :=
       orElse (GitHubFileResponse.encoding fileData) (js "utf-8");
     FileContent.size := GitHubFileResponse.size fileData;
     FileContent.type := typeName (GitHubFileResponse.type fileData);
     FileContent.sha := GitHubFileResponse.sha fileData |}.

(** The text shown for a file response; decoding may throw. *)
Definition decodeContent (fileData : GitHubFileResponse.t) : Outcome JsString :=
  match GitHubFileResponse.content fileData with
  | Some c =>
      if truthy c then
        if bool_decide (GitHubFileResponse.encoding fileData = Some (js "base64"))
        then Platform.atob (atobErrorMessage env) (Platform.removeNewlines c)
        else Return c
      else Return []
  | None => Return []
  end.

Definition fetchFileContent (r : State) (filePath : JsString) : M unit :=
  tryCatchFinally
    (setLoading true ;;
     setError None ;;
     let octokit := createOctokitInstance in
     data <- getContent octokit
               {| GetContent.owner := owner r; GetContent.repo := repo r;
                  GetContent.path := filePath;
                  GetContent.ref := selectedBranch r |} ;;
     match data with
     | Single fileData =>
         if bool_decide (GitHubFileResponse.type fileData = file) then
           content <- lift (decodeContent fileData) ;;
           setSelectedFile (Some (fileContentOf fileData content))
         else ret tt
     | Listing _ => ret tt
     end)
    (fun err =>
       setError (Some (errorMessage err (js "Failed to fetch file content"))))
    (setLoading false).

Definition noContentFolder : JsString :=
  js "No " ++ [34] ++ js "content" ++ [34] ++ js " folder found in this repository".

Definition fetchRepoContents (r : State) (path : JsString) : M unit :=
  tryCatchFinally
    (setLoading true ;;
     setError None ;;
     let octokit := createOctokitInstance in
     data <- getContent octokit
               {| GetContent.owner := owner r; GetContent.repo := repo r;
                  GetContent.path := path;
                  GetContent.ref := selectedBranch r |} ;;
     match data with
     | Listing repoFiles =>
         if bool_decide (path = []) then
           match
             List.find (fun f => bool_decide (RepoFile.name f = js "content")
                                 && bool_decide (RepoFile.type f = dir))
               repoFiles
           with
           | Some contentFolder =>
               setFiles [contentFolder] ;;
               setExpandedFolders {[ js "content" ]} ;;
               fetchFolderContents r (js "content")
           | None =>
               setFiles [] ;;
               setError (Some noContentFolder)
           end
         else setFolderContents (fun prev => <[path := repoFiles]> prev)
     | Single fileData =>
         if bool_decide (GitHubFileResponse.type fileData = file) then
           fetchFileContent r (GitHubFileResponse.path fileData)
         else ret tt
     end)
    (fun err =>
       setError
         (Some (errorMessage err (js "Failed to fetch repository contents"))))
    (setLoading false).

Definition toggleFolder (r : State) (folderPath : JsString) : M unit :=
  let newExpandedFolders := expandedFolders r in
  if bool_decide (folderPath ∈ expandedFolders r) then
    let newExpandedFolders := newExpandedFolders ∖ {[ folderPath ]} in
    setExpandedFolders newExpandedFolders
  else
    let newExpandedFolders := {[ folderPath ]} ∪ newExpandedFolders in
    (if negb (bool_decide (is_Some (folderContents r !! folderPath)))
     then fetchFolderContents r folderPath
     else ret tt) ;;
    setExpandedFolders newExpandedFolders.

Definition handleFileClick (r : State) (filePath : JsString) : M unit :=
  setIsEditing false ;;
  setIsMdxEditorMode false ;;
  fetchFileContent r filePath.

(** [fileName.toLowerCase().endsWith('.mdx')]: only the ASCII capitals
    lower-case to the letters of the suffix. *)
Definition isMdxFile (fileName : JsString) : bool :=
  match rev fileName with
  | x :: d :: m :: dot :: _ =>
      ((x =? 120) || (x =? 88)) && ((d =? 100) || (d =? 68))
      && ((m =? 109) || (m =? 77)) && (dot =? 46)
  | _ => false
  end.

(** The text that a save commits: the MDX editor's markdown when the MDX
    mode is on and the editor is mounted, the text area's content
    otherwise. *)
Definition contentToSave (r : State) (editor : option JsString) : JsString :=
  if isMdxEditorMode r then
    match editor with
    | Some markdown => markdown
    | None => editedContent r
    end
  else editedContent r.

Definition saveFileContent (r : State) : M unit :=
  match selectedFile r, truthy token with
  | Some selected, true =>
      if negb (truthy (Platform.trim (commitMessage r))) then
        setError (Some (js "Commit message is required"))
      else
        tryCatchFinally
          (setSaveLoading true ;;
           setError None ;;
           let octokit := createOctokitInstance in
           editor <- readRef ;;
           let contentToSave := contentToSave r editor in
           encodedContent <-
             lift (Platform.btoa (btoaErrorMessage env) contentToSave) ;;
           createOrUpdateFileContents octokit
             {| CreateOrUpdateFileContents.owner := owner r;
                CreateOrUpdateFileContents.repo := repo r;
                CreateOrUpdateFileContents.path := FileContent.path selected;
                CreateOrUpdateFileContents.message := commitMessage r;
                CreateOrUpdateFileContents.content := encodedContent;
                CreateOrUpdateFileContents.sha := FileContent.sha selected;
                CreateOrUpdateFileContents.branch := selectedBranch r |} ;;
           fetchFileContent r (FileContent.path selected) ;;
           setIsEditing false ;;
           setIsMdxEditorMode false ;;
           setCommitMessage [])
          (fun err =>
             setError (Some (errorMessage err (js "Failed to save file"))))
          (setSaveLoading false)
  | _, _ => setError (Some (js "GitHub token is required to save files"))
  end.

Definition startEditing (r : State) (useMdxEditor : bool) : M unit :=
  match selectedFile r with
  | Some selected =>
      setEditedContent (FileContent.content selected) ;;
      setIsEditing true ;;
      setIsMdxEditorMode useMdxEditor ;;
      setCommitMessage (js "Update " ++ FileContent.name selected)
  | None => ret tt
  end.

Definition cancelEditing : M unit :=
  setIsEditing false ;;
  setIsMdxEditorMode false ;;
  setEditedContent [] ;;
  setCommitMessage [].

(** *** Effects

    The component declares each of its three effects twice, with the same
    body and the same dependencies, so whenever an effect is due React runs
    its body twice.  The bodies are given once here; an event of a session
    is one run of a body, and [effectsOfMount] below lists the runs that
    follow the first render. *)

(** Initial load, run after the first render. *)
Definition effect_initialLoad (r : State) : M unit :=
  if truthy (owner r) && truthy (repo r) then fetchBranches r else ret tt.

(** Auto-fetch of the root listing, run when [branches] or [selectedBranch]
    changed. *)
Definition effect_autoFetch (r : State) : M unit :=
  if negb (bool_decide (branches r = [])) && truthy (selectedBranch r)
  then fetchRepoContents r []
  else ret tt.

(** Clearing of the state, run when [selectedBranch] changed. *)
Definition effect_branchChanged (r : State) : M unit :=
  if truthy (selectedBranch r) then
    setExpandedFolders ∅ ;;
    setFolderContents (fun _ => ∅) ;;
    setSelectedFile None ;;
    setIsEditing false ;;
    setIsMdxEditorMode false
  else ret tt.

(** *** Events of a session *)

(** What can happen to the mounted component: the user's clicks and
    keystrokes, one run of the body of an effect, and the life of the MDX
    editor behind [mdxEditorRef]: it is mounted and its [getMarkdown()]
    returns [markdown], it is unmounted, or what its [getMarkdown()] returns
    has become [markdown] (after typing in the editor, or after a call of
    [setMarkdown]).  Handlers run one at a time, each to completion; the
    buttons' [disabled] and visibility conditions are not imposed, so the
    sessions described here include every session of the page. *)
Inductive Event : Type :=
  | RunInitialLoad
  | RunAutoFetch
  | RunBranchChanged
  | ClickTreeItem (f : RepoFile.t)
  | SelectBranch (value : JsString)
  | ClickEdit (useMdxEditor : bool)
  | ClickCancel
  | ClickSave
  | ChangeCommitMessage (value : JsString)
  | ChangeSource (value : JsString)
  | EditorMounted (markdown : JsString)
  | EditorUnmounted
  | EditorChanged (markdown : JsString).

(** Whether the selected file, if any, is an MDX file. *)
Definition mdxSelected (r : State) : bool :=
  match selectedFile r with
  | Some selected => isMdxFile (FileContent.name selected)
  | None => false
  end.

(** The handler of an event, for the render whose snapshot is [r].  The text
    area of the MDX view also calls [setMarkdown] of the mounted editor. *)
Definition handler (ev : Event) (r : State) : M unit :=
  match ev with
  | RunInitialLoad => effect_initialLoad r
  | RunAutoFetch => effect_autoFetch r
  | RunBranchChanged => effect_branchChanged r
  | ClickTreeItem f =>
      match RepoFile.type f with
      | dir => toggleFolder r (RepoFile.path f)
      | file => handleFileClick r (RepoFile.path f)
      end
  | SelectBranch value => setSelectedBranch value
  | ClickEdit useMdxEditor => startEditing r useMdxEditor
  | ClickCancel => cancelEditing
  | ClickSave => saveFileContent r
  | ChangeCommitMessage value => setCommitMessage value
  | ChangeSource value =>
      setEditedContent value ;;
      if isMdxEditorMode r && mdxSelected r then
        editor <- readRef ;;
        match editor with
        | Some _ => setMarkdown value
        | None => ret tt
        end
      else ret tt
  | EditorMounted markdown => writeRef (Some markdown)
  | EditorUnmounted => writeRef None
  | EditorChanged markdown =>
      editor <- readRef ;;
      match editor with
      | Some _ => writeRef (Some markdown)
      | None => ret tt
      end
  end.

(** An event is handled by the render of the current state. *)
Definition step (ev : Event) (w : World) : World := snd (handler ev (state w) w).

Definition run (evs : list Event) (w : World) : World :=
  fold_left (fun w ev => step ev w) evs w.

(** *** The first render

    After a render React runs the effects that are due, in the order of
    their declarations and each with the closure of that render.  After the
    first render every declared effect is due: the three bodies, and then
    the three bodies again. *)
Definition effectsOfMount : list Event :=
  [RunInitialLoad; RunAutoFetch; RunBranchChanged;
   RunInitialLoad; RunAutoFetch; RunBranchChanged].

(** The effects of the render of [w], one after the other, all with the
    closure of that render.  On the page the runs overlap while they wait
    for the API; whether a run sends its first request, and which one, is
    decided by the closure alone. *)
Definition afterRender (effects : list Event) (w : World) : World :=
  let r := state w in
  fold_left (fun w ev => snd (handler ev r w)) effects w.

(** The page once the effects of the first render are done. *)
Definition mounted : World := afterRender effectsOfMount initialWorld.

End RepositoryExplorer.

(** ** Reading the log of exchanges *)

Definition requestAuth (rq : Request) : option JsString :=
  match rq with
  | GET_branches a _ | GET_contents a _ | PUT_contents a _ => a
  end.

Definition requestOwner (rq : Request) : JsString :=
  match rq with
  | GET_branches _ p => ListBranches.owner p
  | GET_contents _ p => GetContent.owner p
  | PUT_contents _ p => CreateOrUpdateFileContents.owner p
  end.

Definition requestRepo (rq : Request) : JsString :=
  match rq with
  | GET_branches _ p => ListBranches.repo p
  | GET_contents _ p => GetContent.repo p
  | PUT_contents _ p => CreateOrUpdateFileContents.repo p
  end.

Definition isFailure (ex : Exchange) : Prop :=
  match reply ex with Failed _ => True | _ => False end.

(** The exchange is a contents request for [path] answered by a directory
    listing. *)
Definition listingFetchOf (path : JsString) (ex : Exchange) : bool :=
  match request ex, reply ex with
  | GET_contents _ p, Content (Listing _) => bool_decide (GetContent.path p = path)
  | _, _ => false
  end.

(** The exchange is a contents request for [path], whatever the answer. *)
Definition contentsFetchOf (path : JsString) (ex : Exchange) : bool :=
  match request ex with
  | GET_contents _ p => bool_decide (GetContent.path p = path)
  | _ => false
  end.

(** A run of folder clicks, each handled by the render of the state the
    previous one left. *)
Definition toggles (env : Env) (net : Network) (paths : list JsString)
    (w : World) : World :=
  fold_left (fun w p => snd (toggleFolder env net (state w) p w)) paths w.

(** The parameters of the requests a render sends. *)
Definition contentsOf (r : State) (path : JsString) : GetContent.params :=
  {| GetContent.owner := owner r; GetContent.repo := repo r;
     GetContent.path := path; GetContent.ref := selectedBranch r |}.

Definition commitOf (r : State) (selected : FileContent.t)
    (encodedContent : JsString) : CreateOrUpdateFileContents.params :=
  {| CreateOrUpdateFileContents.owner := owner r;
     CreateOrUpdateFileContents.repo := repo r;
     CreateOrUpdateFileContents.path := FileContent.path selected;
     CreateOrUpdateFileContents.message := commitMessage r;
     CreateOrUpdateFileContents.content := encodedContent;
     CreateOrUpdateFileContents.sha := FileContent.sha selected;
     CreateOrUpdateFileContents.branch := selectedBranch r |}.

(** ** Invariants of sessions *)

(** The requests of a render carry the client's [auth] and the render's
    [owner] and [repo]. *)
Definition sentBy (env : Env) (r : State) (ex : Exchange) : Prop :=
  requestAuth (request ex) = createOctokitInstance env
  /\ requestOwner (request ex) = owner r
  /\ requestRepo (request ex) = repo r.

(** Every request so far carried the configured values, and the [owner] and
    [repo] cells still hold them. *)
Definition configurationKept (env : Env) (w : World) : Prop :=
  owner (state w) = configuredOwner env
  /\ repo (state w) = configuredRepo env
  /\ Forall (fun ex =>
               requestAuth (request ex) = createOctokitInstance env
               /\ requestOwner (request ex) = configuredOwner env
               /\ requestRepo (request ex) = configuredRepo env)
       (exchanges w).

(** The selected file is the decoded answer to an earlier contents
    request. *)
Definition snapshotFetched (env : Env) (w : World) : Prop :=
  forall selected,
    selectedFile (state w) = Some selected ->
    exists auth p fileData content,
      mkExchange (GET_contents auth p) (Content (Single fileData))
        ∈ exchanges w
      /\ decodeContent env fileData = Return content
      /\ selected = fileContentOf fileData content.

(** ** Readings of the specification that the component does not meet *)

(** "Any failed network call is surfaced in the banner": whenever an
    exchange of a handler failed, the error cell holds a message when the
    handler is done. *)
Definition every_failure_reaches_banner : Prop :=
  forall env net ev r w new ex,
    exchanges (snd (handler env net ev r w)) = new ++ exchanges w ->
    ex ∈ new ->
    isFailure ex ->
    is_Some (error (state (snd (handler env net ev r w)))).

(** "State is discarded and replaced wholesale on every navigation": after a
    folder is expanded the cache holds nothing for any other path. *)
Definition navigation_discards_cache : Prop :=
  forall env net r w folderPath p,
    p ≠ folderPath ->
    folderContents (state (snd (toggleFolder env net r folderPath w))) !! p
      = None.

(** "For every folder path at most one contents fetch occurs while the cache
    retains that path": of the exchanges of a stretch of a session during
    which the cache holds a listing for the path, at most one is a contents
    request for it. *)
Definition one_fetch_while_cached : Prop :=
  forall env net evs w new p,
    (forall k, is_Some (folderContents (state (run env net (take k evs) w)) !! p)) ->
    exchanges (run env net evs w) = new ++ exchanges w ->
    (length (List.filter (contentsFetchOf p) new) <= 1)%nat.

(** "Every user action issues at most one network call." *)
Definition one_call_per_action : Prop :=
  forall env net ev r w,
    (length (exchanges (snd (handler env net ev r w)))
       <= S (length (exchanges w)))%nat.

(** ** A sample repository

    A repository with a [content] directory holding one MDX file, served by
    an API that accepts a commit only with the current content hash. *)

Module Sample.

Definition env : Env :=
  {| NEXT_PUBLIC_GITHUB_OWNER := Some (js "octo");
     NEXT_PUBLIC_GITHUB_REPO := Some (js "site");
     NEXT_PUBLIC_GITHUB_TOKEN := Some (js "ghp_token");
     btoaErrorMessage := js "Invalid character";
     atobErrorMessage :=
       js "The string to be decoded is not correctly encoded." |}.

Definition contentDir : RepoFile.t :=
  {| RepoFile.name := js "content"; RepoFile.path := js "content";
     RepoFile.type := dir; RepoFile.size := Some 0; RepoFile.sha := js "d1";
     RepoFile.download_url := None; RepoFile.url := js "u1" |}.

Definition readme : RepoFile.t :=
  {| RepoFile.name := js "README.md"; RepoFile.path := js "README.md";
     RepoFile.type := file; RepoFile.size := Some 12; RepoFile.sha := js "r1";
     RepoFile.download_url := None; RepoFile.url := js "u2" |}.

Definition docsDir : RepoFile.t :=
  {| RepoFile.name := js "docs"; RepoFile.path := js "content/docs";
     RepoFile.type := dir; RepoFile.size := Some 0; RepoFile.sha := js "d2";
     RepoFile.download_url := None; RepoFile.url := js "u3" |}.

Definition post : RepoFile.t :=
  {| RepoFile.name := js "post.mdx"; RepoFile.path := js "content/post.mdx";
     RepoFile.type := file; RepoFile.size := Some 5; RepoFile.sha := js "f1";
     RepoFile.download_url := None; RepoFile.url := js "u4" |}.

Definition postResponse : GitHubFileResponse.t :=
  {| GitHubFileResponse.name := js "post.mdx";
     GitHubFileResponse.path := js "content/post.mdx";
     GitHubFileResponse.type := file;
     GitHubFileResponse.content := Some (js "SGVs" ++ [10] ++ js "bG8=" ++ [10]);
     GitHubFileResponse.encoding := Some (js "base64");
     GitHubFileResponse.size := 5;
     GitHubFileResponse.sha := js "f1" |}.

Definition notFound : Thrown := ErrorObj (js "Not Found").

Definition net : Network :=
  {| net_listBranches := fun _ _ _ =>
       Return [ {| Branch.name := js "main"; Branch.commit_sha := js "c1";
                   Branch.protected := true |} ];
     net_getContent := fun _ _ p =>
       if bool_decide (GetContent.path p = []) then
         Return (Listing [readme; contentDir])
       else if bool_decide (GetContent.path p = js "content") then
         Return (Listing [docsDir; post])
       else if bool_decide (GetContent.path p = js "content/docs") then
         Return (Listing [])
       else if bool_decide (GetContent.path p = js "content/post.mdx") then
         Return (Single postResponse)
       else Throw notFound;
     net_createOrUpdateFileContents := fun _ _ p =>
       if bool_decide (CreateOrUpdateFileContents.sha p = js "f1")
       then Return tt
       else Throw (ErrorObj (js "content/post.mdx does not match")) |}.

(** An API that is out of reach. *)
Definition offline : Network :=
  {| net_listBranches := fun _ _ _ => Throw (ErrorObj (js "Network Error"));
     net_getContent := fun _ _ _ => Throw (ErrorObj (js "Network Error"));
     net_createOrUpdateFileContents := fun _ _ _ =>
       Throw (ErrorObj (js "Network Error")) |}.

(** A session in which the body of each effect has run once: the branches,
    the root listing and the content folder have been read. *)
Definition loaded : World :=
  run env net [RunInitialLoad; RunBranchChanged; RunAutoFetch]
    (initialWorld env).

(** The post is selected and being edited in the text area. *)
Definition editing : World :=
  run env net
    [ClickTreeItem post; ClickEdit false; ChangeSource (js "Hello!")] loaded.

End Sample.

(** ** More of the component: icons, the rendered tree, the controls *)

(** String methods of the platform that the remaining code uses. *)
Module Text.

(** [s.split(sep)] for a one-character separator: never empty, the empty
    string splits into one empty piece. *)
Fixpoint split (sep : N) (s : JsString) : list JsString :=
  match s with
  | [] => [[]]
  | c :: s' =>
      if c =? sep then [] :: split sep s'
      else match split sep s' with
           | piece :: pieces => (c :: piece) :: pieces
           | [] => [[c]]
           end
  end.

(** [pieces.join(sep)] for a one-character separator. *)
Fixpoint join (sep : N) (pieces : list JsString) : JsString :=
  match pieces with
  | [] => []
  | [piece] => piece
  | piece :: rest => piece ++ sep :: join sep rest
  end.

(** The lower case of one code unit: the ASCII capitals, and the two other
    code points whose lower case contains an ASCII letter (the Kelvin sign
    and the dotted capital I).  The lower case of any other code unit has
    no ASCII letter in it, so comparisons with ASCII words cannot tell it
    from the unit itself, which is what is kept here. *)
Definition lowerUnit (c : N) : JsString :=
  if (65 <=? c) && (c <=? 90) then [c + 32]
  else if c =? 8490 then [107]
  else if c =? 304 then [105; 775]
  else [c].

(** [s.toLowerCase()] *)
Definition toLowerCase (s : JsString) : JsString := flat_map lowerUnit s.

(** [pieces.pop()] read as a value: the last piece. *)
Definition pop (pieces : list JsString) : option JsString := last pieces.

End Text.

(** The icons, as the code units of the source's literals. *)
Module Icon.
Definition folder : JsString := [55357; 56513].
Definition javascript : JsString := [55357; 57320].
Definition typescript : JsString := [55357; 56631].
Definition python : JsString := [55357; 56333].
Definition markdown : JsString := [55357; 56541].
Definition mdx : JsString := [55357; 56541; 10024].
Definition document : JsString := [55357; 56516].
Definition stylesheet : JsString := [55356; 57256].
Definition web : JsString := [55356; 57104].
Definition picture : JsString := [55357; 56764; 65039].
End Icon.

(** [extension === a], for the cases of the [switch]. *)
Definition isCase (extension : option JsString) (a : string) : bool :=
  bool_decide (extension = Some (js a)).

Definition getFileIcon (fileName : JsString) (type : EntryType) : JsString :=
  match type with
  | dir => Icon.folder
  | file =>
      let extension :=
        Text.toLowerCase <$> Text.pop (Text.split 46 fileName) in
      if isCase extension "js" || isCase extension "jsx" then Icon.javascript
      else if isCase extension "ts" || isCase extension "tsx" then Icon.typescript
      else if isCase extension "py" then Icon.python
      else if isCase extension "md" then Icon.markdown
      else if isCase extension "mdx" then Icon.mdx
      else if isCase extension "json" then Icon.document
      else if isCase extension "css" then Icon.stylesheet
      else if isCase extension "html" then Icon.web
      else if isCase extension "png" || isCase extension "jpg"
              || isCase extension "jpeg" || isCase extension "gif"
              || isCase extension "svg" then Icon.picture
      else Icon.document
  end.

(** [isMdxFile] as the source writes it, with the platform's methods. *)
Definition endsWithMdx (fileName : JsString) : bool :=
  bool_decide (js ".mdx" `suffix_of` Text.toLowerCase fileName).

(** The items that [renderTreeItem] renders beneath an item: the cached
    listing of an expanded directory, when it is not empty. *)
Definition renderedChildren (r : State) (f : RepoFile.t) : list RepoFile.t :=
  let isExpanded := bool_decide (RepoFile.path f ∈ expandedFolders r) in
  let children := default [] (folderContents r !! RepoFile.path f) in
  if bool_decide (RepoFile.type f = dir) && isExpanded
     && negb (bool_decide (children = []))
  then children else [].

(** Whether the control of an event is rendered and enabled in a render.
    The tree items are not tracked (any item can be clicked); effects and
    the editor are not controls. *)
Definition rendered (env : Env) (ev : Event) (r : State) : bool :=
  match ev with
  | ClickEdit useMdxEditor =>
      match selectedFile r with
      | Some selected =>
          negb (isEditing r) && truthy (token env)
          && (negb useMdxEditor || isMdxFile (FileContent.name selected))
      | None => false
      end
  | ClickCancel =>
      bool_decide (is_Some (selectedFile r)) && isEditing r
      && negb (saveLoading r)
  | ClickSave =>
      bool_decide (is_Some (selectedFile r)) && isEditing r
      && negb (saveLoading r || negb (truthy (Platform.trim (commitMessage r))))
  | ChangeCommitMessage _ | ChangeSource _ =>
      bool_decide (is_Some (selectedFile r)) && isEditing r
  | SelectBranch value =>
      negb (branchLoading r)
      && bool_decide (value ∈ map Branch.name (branches r))
  | _ => true
  end.

(** A session of the page: an event whose control is not there does
    nothing. *)
Definition stepUI (env : Env) (net : Network) (ev : Event) (w : World) : World :=
  if rendered env ev (state w) then step env net ev w else w.

Definition runUI (env : Env) (net : Network) (evs : list Event) (w : World)
    : World :=
  fold_left (fun w ev => stepUI env net ev w) evs w.

(** *** Invariants of sessions, continued *)

(** No spinner is left on. *)
Definition idle (w : World) : Prop :=
  loading (state w) = false
  /\ saveLoading (state w) = false
  /\ branchLoading (state w) = false.

(** Edit mode needs a selected file, and the MDX mode needs edit mode. *)
Definition editingSelected (w : World) : Prop :=
  (isEditing (state w) = true -> is_Some (selectedFile (state w)))
  /\ (isMdxEditorMode (state w) = true -> isEditing (state w) = true).

(** Every commit in the log was sent with a token and after the API had
    delivered a file with the path and the hash that the commit names. *)
Definition commitsAuthorised (env : Env) (log : list Exchange) : Prop :=
  forall later earlier auth p rp,
    log = later ++ mkExchange (PUT_contents auth p) rp :: earlier ->
    auth = Some (token env)
    /\ token env ≠ []
    /\ exists auth' p' fileData,
         mkExchange (GET_contents auth' p') (Content (Single fileData))
           ∈ earlier
         /\ GitHubFileResponse.path fileData = CreateOrUpdateFileContents.path p
         /\ GitHubFileResponse.sha fileData = CreateOrUpdateFileContents.sha p.

(** The text of a file that came base64-encoded has byte-sized code units. *)
Definition base64TextIsBytes (w : World) : Prop :=
  forall selected,
    selectedFile (state w) = Some selected ->
    FileContent.encoding selected = js "base64" ->
    Platform.isLatin1 (FileContent.content selected) = true.

(** ** The flat explorer

    The revision of the component in [src/app/components]: one directory is
    listed at a time, with breadcrumbs above it; the owner and the name of
    the repository are typed into two inputs; there are no branches and
    nothing is written.  Requests carry no [ref] here. *)

Module PathExplorer.

Module FileContent.
Record t : Type := mk {
  name : JsString;
  path : JsString;
  content : JsString;
  encoding : JsString;
  size : N;
  type : JsString
}.
End FileContent.

Record State : Type := mkState {
  owner : JsString;
  repo : JsString;
  files : list RepoFile.t;
  selectedFile : option FileContent.t;
  currentPath : JsString;
  loading : bool;
  error : option JsString;
  breadcrumbs : list JsString
}.

Definition with_owner (v : JsString) (s : State) : State :=
  mkState v (repo s) (files s) (selectedFile s) (currentPath s) (loading s)
    (error s) (breadcrumbs s).
Definition with_repo (v : JsString) (s : State) : State :=
  mkState (owner s) v (files s) (selectedFile s) (currentPath s) (loading s)
    (error s) (breadcrumbs s).
Definition with_files (v : list RepoFile.t) (s : State) : State :=
  mkState (owner s) (repo s) v (selectedFile s) (currentPath s) (loading s)
    (error s) (breadcrumbs s).
Definition with_selectedFile (v : option FileContent.t) (s : State) : State :=
  mkState (owner s) (repo s) (files s) v (currentPath s) (loading s)
    (error s) (breadcrumbs s).
Definition with_currentPath (v : JsString) (s : State) : State :=
  mkState (owner s) (repo s) (files s) (selectedFile s) v (loading s)
    (error s) (breadcrumbs s).
Definition with_loading (v : bool) (s : State) : State :=
  mkState (owner s) (repo s) (files s) (selectedFile s) (currentPath s) v
    (error s) (breadcrumbs s).
Definition with_error (v : option JsString) (s : State) : State :=
  mkState (owner s) (repo s) (files s) (selectedFile s) (currentPath s)
    (loading s) v (breadcrumbs s).
Definition with_breadcrumbs (v : list JsString) (s : State) : State :=
  mkState (owner s) (repo s) (files s) (selectedFile s) (currentPath s)
    (loading s) (error s) v.

(** [getContent({ owner, repo, path })] of a client with the given [auth]. *)
Record Request : Type := mkRequest {
  auth : option JsString;
  rq_owner : JsString;
  rq_repo : JsString;
  rq_path : JsString
}.

Record Exchange : Type := mkExchange {
  request : Request;
  reply : Outcome ContentData
}.

(** The API answers from the history of exchanges, most recent first. *)
Definition Network : Type := list Exchange -> Request -> Outcome ContentData.

Record World : Type := mkWorld { state : State; exchanges : list Exchange }.

Definition M (A : Type) : Type := World -> Outcome A * World.

Definition ret {A} (a : A) : M A := fun w => (Return a, w).

Definition bind {A B} (m : M A) (k : A -> M B) : M B :=
  fun w =>
    match m w with
    | (Return a, w') => k a w'
    | (Throw e, w') => (Throw e, w')
    end.

Declare Scope explorer_scope.
Delimit Scope explorer_scope with explorer.
Notation "x <- m ;; k" := (bind m (fun x => k))
  (at level 100, m at next level, right associativity) : explorer_scope.
Notation "m ;; k" := (bind m (fun _ => k))
  (at level 100, right associativity) : explorer_scope.
Local Open Scope explorer_scope.

Definition lift {A} (o : Outcome A) : M A := fun w => (o, w).

(** [try { body } catch (err) { handler } finally { fin }] *)
Definition tryCatchFinally (body : M unit) (handler : Thrown -> M unit)
    (fin : M unit) : M unit :=
  fun w =>
    let (r, w1) :=
      match body w with
      | (Return a, w') => (Return a, w')
      | (Throw e, w') => handler e w'
      end in
    match fin w1 with
    | (Return _, w2) => (r, w2)
    | (Throw e, w2) => (Throw e, w2)
    end.

Definition modify (f : State -> State) : M unit :=
  fun w => (Return tt, mkWorld (f (state w)) (exchanges w)).

Definition setOwner v := modify (with_owner v).
Definition setRepo v := modify (with_repo v).
Definition setFiles v := modify (with_files v).
Definition setSelectedFile v := modify (with_selectedFile v).
Definition setCurrentPath v := modify (with_currentPath v).
Definition setLoading v := modify (with_loading v).
Definition setError v := modify (with_error v).
Definition setBreadcrumbs v := modify (with_breadcrumbs v).

Section Component.

Variable env : Env.
Variable net : Network.

Definition initialState : State :=
  {| owner := js "B0llu"; repo := js "ocktokit-poc"; files := [];
     selectedFile := None; currentPath := []; loading := false;
     error := None; breadcrumbs := [] |}.

Definition initialWorld : World :=
  {| state := initialState; exchanges := [] |}.

(** One awaited call of [octokit.rest.repos.getContent]. *)
Definition getContent (rq : Request) : M ContentData :=
  fun w =>
    let o := net (exchanges w) rq in
    (o, mkWorld (state w) (mkExchange rq o :: exchanges w)).

Definition requestOf (r : State) (path : JsString) : Request :=
  {| auth := createOctokitInstance env; rq_owner := owner r;
     rq_repo := repo r; rq_path := path |}.

Definition fileContentOf (fileData : GitHubFileResponse.t) (content : JsString)
    : FileContent.t :=
  {| FileContent.name := GitHubFileResponse.name fileData;
     FileContent.path := GitHubFileResponse.path fileData;
     FileContent.content := content;
     FileContent.encoding :=
       orElse (GitHubFileResponse.encoding fileData) (js "utf-8");
     FileContent.size := GitHubFileResponse.size fileData;
     FileContent.type := typeName (GitHubFileResponse.type fileData) |}.

Definition fetchFileContent (r : State) (filePath : JsString) : M unit :=
  tryCatchFinally
    (setLoading true ;;
     setError None ;;
     data <- getContent (requestOf r filePath) ;;
     match data with
     | Single fileData =>
         if bool_decide (GitHubFileResponse.type fileData = file) then
           content <- lift (decodeContent env fileData) ;;
           setSelectedFile (Some (fileContentOf fileData content))
         else ret tt
     | Listing _ => ret tt
     end)
    (fun err =>
       setError (Some (errorMessage err (js "Failed to fetch file content"))))
    (setLoading false).

Definition fetchRepoContents (r : State) (path : JsString) : M unit :=
  tryCatchFinally
    (setLoading true ;;
     setError None ;;
     data <- getContent (requestOf r path) ;;
     match data with
     | Listing repoFiles =>
         setFiles repoFiles ;;
         setCurrentPath path ;;
         setBreadcrumbs (if truthy path then Text.split 47 path else [])
     | Single fileData =>
         if bool_decide (GitHubFileResponse.type fileData = file) then
           fetchFileContent r (GitHubFileResponse.path fileData)
         else ret tt
     end)
    (fun err =>
       setError
         (Some (errorMessage err (js "Failed to fetch repository contents"))))
    (setLoading false).

Definition handleFolderClick (r : State) (folderPath : JsString) : M unit :=
  fetchRepoContents r folderPath.

Definition handleFileClick (r : State) (filePath : JsString) : M unit :=
  fetchFileContent r filePath.

(** [breadcrumbs.slice(0, index + 1).join('/')] *)
Definition handleBreadcrumbClick (r : State) (index : nat) : M unit :=
  let newPath := Text.join 47 (take (S index) (breadcrumbs r)) in
  fetchRepoContents r newPath.

(** [breadcrumbs.slice(0, -1).join('/')] *)
Definition goBack (r : State) : M unit :=
  let parentPath := Text.join 47 (removelast (breadcrumbs r)) in
  fetchRepoContents r parentPath.

(** The events of the page.  The panel with the root button, the
    breadcrumbs, the Back button and the items is rendered only while the
    file list is not empty ([files.length > 0 && ...]).  Inside it there is
    a breadcrumb button for each index of [breadcrumbs], the Back button
    while there are breadcrumbs, and an item for each entry of [files].  The
    Explore button is always there and is disabled while loading. *)
Inductive Event : Type :=
  | Mount
  | ChangeOwner (value : JsString)
  | ChangeRepo (value : JsString)
  | ClickExplore
  | ClickRoot
  | ClickItem (f : RepoFile.t)
  | ClickBreadcrumb (index : nat)
  | ClickBack.

Definition handler (ev : Event) (r : State) : M unit :=
  match ev with
  | Mount =>
      if truthy (owner r) && truthy (repo r) then fetchRepoContents r []
      else ret tt
  | ChangeOwner value => setOwner value
  | ChangeRepo value => setRepo value
  | ClickExplore => if loading r then ret tt else fetchRepoContents r []
  | ClickRoot =>
      if bool_decide (files r = []) then ret tt else fetchRepoContents r []
  | ClickItem f =>
      if bool_decide (f ∈ files r) then
        match RepoFile.type f with
        | dir => handleFolderClick r (RepoFile.path f)
        | file => handleFileClick r (RepoFile.path f)
        end
      else ret tt
  | ClickBreadcrumb index =>
      if bool_decide (files r = []) then ret tt
      else if bool_decide (index < length (breadcrumbs r))%nat
      then handleBreadcrumbClick r index
      else ret tt
  | ClickBack =>
      if bool_decide (files r = []) then ret tt
      else if bool_decide (breadcrumbs r = []) then ret tt
      else goBack r
  end.

Definition step (ev : Event) (w : World) : World := snd (handler ev (state w) w).

Definition run (evs : list Event) (w : World) : World :=
  fold_left (fun w ev => step ev w) evs w.

End Component.

(** The breadcrumbs are the pieces of the current path. *)
Definition crumbsOfPath (w : World) : Prop :=
  breadcrumbs (state w)
  = if truthy (currentPath (state w))
    then Text.split 47 (currentPath (state w)) else [].

(** A repository with nested directories, the inner one empty. *)
Definition sampleNet : Network :=
  fun _ rq =>
    if bool_decide (rq_path rq = []) then Return (Listing [Sample.contentDir])
    else if bool_decide (rq_path rq = js "content") then
      Return (Listing [Sample.docsDir; Sample.post])
    else if bool_decide (rq_path rq = js "content/docs") then
      Return (Listing [])
    else Throw Sample.notFound.

Definition guide : RepoFile.t :=
  {| RepoFile.name := js "guide.md"; RepoFile.path := js "content/docs/guide.md";
     RepoFile.type := file; RepoFile.size := Some 40; RepoFile.sha := js "g1";
     RepoFile.download_url := None; RepoFile.url := js "u5" |}.

(** The same repository with a file in the inner directory. *)
Definition filledNet : Network :=
  fun h rq =>
    if bool_decide (rq_path rq = js "content/docs") then Return (Listing [guide])
    else sampleNet h rq.

End PathExplorer.

(** * Properties *)

(** ** Tactics *)

Ltac divmod_lia := zify; Z.to_euclidean_division_equations; lia.

Ltac compare_cases :=
  repeat match goal with
    | |- context [?a <? ?b] => destruct (N.ltb_spec a b)
    | |- context [?a <=? ?b] => destruct (N.leb_spec a b)
    | |- context [?a =? ?b] => destruct (N.eqb_spec a b)
    end; simpl; try lia.

Ltac not_padding c :=
  destruct c as [|p]; [done|];
  do 6 (destruct p as [p|p|]; try reflexivity); done.

Ltac unfold_setters :=
  unfold setFiles, setSelectedFile, setLoading, setError, setIsEditing,
    setEditedContent, setCommitMessage, setSaveLoading, setBranches,
    setSelectedBranch, setBranchLoading, setExpandedFolders,
    setIsMdxEditorMode, setFolderContents in *.

Ltac unfold_monad :=
  unfold tryCatchFinally, tryCatch, bind, ret, lift, roundTrip, modify,
    readRef, writeRef, setMarkdown, consoleError in *.

Ltac unfold_calls :=
  unfold getContent, listBranches, createOrUpdateFileContents in *.

Ltac handler_simpl := unfold_calls; unfold_setters; unfold_monad; simpl in *.

Ltac unfold_handlers :=
  unfold handler, effect_initialLoad, effect_autoFetch, effect_branchChanged,
    toggleFolder, handleFileClick, saveFileContent, startEditing,
    cancelEditing, fetchRepoContents, fetchFileContent, fetchFolderContents,
    fetchBranches in *.

(** ** Platform functions *)

Example btoa_Man (message : JsString) :
  Platform.btoa message (js "Man") = Return (js "TWFu").
Proof. reflexivity. Qed.

Example btoa_Ma (message : JsString) :
  Platform.btoa message (js "Ma") = Return (js "TWE=").
Proof. reflexivity. Qed.

Example btoa_M (message : JsString) :
  Platform.btoa message (js "M") = Return (js "TQ==").
Proof. reflexivity. Qed.

Example btoa_sparkles (message : JsString) :
  Platform.btoa message [10024]
  = Throw (Platform.invalidCharacterError message).
Proof. reflexivity. Qed.

Example atob_TWE (message : JsString) :
  Platform.atob message (js "TWE=") = Return (js "Ma").
Proof. vm_compute. reflexivity. Qed.

Example trim_spaces : Platform.trim (js "  a b  ") = js "a b".
Proof. reflexivity. Qed.

Lemma trimStart_nil (s : JsString) :
  Platform.trimStart s = [] <-> forallb Platform.isWhiteSpace s = true.
Proof.
  induction s as [|c s IH]; simpl; [done|].
  destruct (Platform.isWhiteSpace c); simpl; [done|].
  split; intros H; discriminate H.
Qed.

Lemma trimStart_suffix (s : JsString) :
  exists white, s = white ++ Platform.trimStart s
                /\ forallb Platform.isWhiteSpace white = true.
Proof.
  induction s as [|c s (white & Hs & Hw)]; simpl.
  - by exists [].
  - destruct (Platform.isWhiteSpace c) eqn:Hc.
    + exists (c :: white). simpl. rewrite Hc, Hw. split; [congruence|done].
    + by exists [].
Qed.

Lemma trimStart_head (s : JsString) c rest :
  Platform.trimStart s = c :: rest -> Platform.isWhiteSpace c = false.
Proof.
  induction s as [|d s IH]; simpl; [done|].
  destruct (Platform.isWhiteSpace d) eqn:Hd; [done|].
  intros [= -> _]. done.
Qed.

Lemma forallb_reverse {A} (f : A -> bool) (l : list A) :
  forallb f (rev l) = forallb f l.
Proof.
  induction l as [|a l IH]; simpl; [done|].
  rewrite forallb_app, IH. simpl. destruct (f a), (forallb f l); done.
Qed.

(** [!message.trim()] holds exactly for the messages that are empty or
    consist of white space only. *)
Lemma trim_nil (s : JsString) :
  Platform.trim s = [] <-> forallb Platform.isWhiteSpace s = true.
Proof.
  unfold Platform.trim, Platform.trimEnd.
  rewrite <- trimStart_nil.
  split.
  - intros H. apply (f_equal (@rev N)) in H. rewrite rev_involutive in H.
    simpl in H. apply trimStart_nil in H. rewrite forallb_reverse in H.
    destruct (Platform.trimStart s) as [|c rest] eqn:Hs; [done|].
    apply trimStart_head in Hs. simpl in H. by rewrite Hs in H.
  - intros ->. done.
Qed.

(** *** Base64 round trip *)

Lemma b64index_b64char (i : N) :
  i < 64 -> Platform.b64index (Platform.b64char i) = Some i.
Proof.
  intros Hi. unfold Platform.b64char.
  destruct (N.ltb_spec i 26); [|destruct (N.ltb_spec i 52);
    [|destruct (N.ltb_spec i 62); [|destruct (N.eqb_spec i 62)]]].
  all: unfold Platform.b64index; compare_cases; f_equal; lia.
Qed.

Lemma b64char_not_padding (i : N) : Platform.b64char i ≠ 61.
Proof. unfold Platform.b64char. compare_cases. Qed.

Lemma b64char_not_whitespace (i : N) :
  Platform.isAsciiWhitespace (Platform.b64char i) = false.
Proof.
  unfold Platform.b64char, Platform.isAsciiWhitespace.
  destruct (N.ltb_spec i 26); [|destruct (N.ltb_spec i 52);
    [|destruct (N.ltb_spec i 62); [|destruct (N.eqb_spec i 62)]]].
  all: compare_cases; done.
Qed.

Lemma sextets_b64char (l : list N) :
  Forall (fun i => i < 64) l -> Platform.sextets (map Platform.b64char l) = Some l.
Proof.
  induction 1 as [|i l Hi _ IH]; simpl; [done|].
  by rewrite (b64index_b64char i Hi), IH.
Qed.

Lemma filter_b64char (l pad : list N) :
  Forall (fun c => c = 61) pad ->
  filter (fun c => Platform.isAsciiWhitespace c = false)
    (map Platform.b64char l ++ pad)
  = map Platform.b64char l ++ pad.
Proof.
  intros Hpad. rewrite filter_app. f_equal.
  - induction l as [|i l IH]; simpl; [done|].
    rewrite filter_cons_True by apply b64char_not_whitespace. by rewrite IH.
  - induction Hpad as [|c pad -> _ IH]; [done|].
    rewrite filter_cons_True by done. by rewrite IH.
Qed.

(** What [encodeBytes] produces: the letters of the sextets of the input,
    followed by the padding that fills the last group. *)
Lemma encodeBytes_sextets (s : list N) :
  Platform.isLatin1 s = true ->
  exists sx pad,
    Platform.encodeBytes s = map Platform.b64char sx ++ pad
    /\ Forall (fun i => i < 64) sx
    /\ Platform.decodeSextets sx = s
    /\ ((pad = [] /\ N.of_nat (length sx) mod 4 = 0)
        \/ (pad = [61; 61] /\ N.of_nat (length sx) mod 4 = 2)
        \/ (pad = [61] /\ N.of_nat (length sx) mod 4 = 3)).
Proof.
  assert (forall n (s : list N), (length s <= n)%nat ->
            Platform.isLatin1 s = true ->
            exists sx pad,
              Platform.encodeBytes s = map Platform.b64char sx ++ pad
              /\ Forall (fun i => i < 64) sx
              /\ Platform.decodeSextets sx = s
              /\ ((pad = [] /\ N.of_nat (length sx) mod 4 = 0)
                  \/ (pad = [61; 61] /\ N.of_nat (length sx) mod 4 = 2)
                  \/ (pad = [61] /\ N.of_nat (length sx) mod 4 = 3)))
    as Hgen; [|by eapply Hgen].
  clear s. induction n as [|n IH]; intros s Hlen Hlatin.
  { destruct s; [|simpl in Hlen; lia]. exists [], []. repeat split; auto. }
  destruct s as [|a [|b [|c rest]]].
  - exists [], []. repeat split; auto.
  - simpl in Hlatin. apply andb_prop in Hlatin as [Ha%N.leb_le _].
    exists [a / 4; a mod 4 * 16], [61; 61]. split; [reflexivity|].
    split; [repeat constructor; divmod_lia|].
    split; [simpl; f_equal; divmod_lia|]. right; left. done.
  - simpl in Hlatin. apply andb_prop in Hlatin as [Ha%N.leb_le Hlatin].
    apply andb_prop in Hlatin as [Hb%N.leb_le _].
    exists [a / 4; a mod 4 * 16 + b / 16; b mod 16 * 4], [61].
    split; [reflexivity|].
    split; [repeat constructor; divmod_lia|].
    split; [simpl; repeat f_equal; divmod_lia|]. right; right. done.
  - simpl in Hlatin. apply andb_prop in Hlatin as [Ha%N.leb_le Hlatin].
    apply andb_prop in Hlatin as [Hb%N.leb_le Hlatin].
    apply andb_prop in Hlatin as [Hc%N.leb_le Hlatin].
    destruct (IH rest) as (sx & pad & Henc & Hsx & Hdec & Hpad);
      [simpl in Hlen; lia|exact Hlatin|].
    exists (a / 4 :: (a mod 4 * 16 + b / 16) :: (b mod 16 * 4 + c / 64)
            :: c mod 64 :: sx), pad.
    split; [simpl; by rewrite Henc|].
    split; [repeat constructor; try divmod_lia; exact Hsx|].
    split.
    + simpl. rewrite Hdec. repeat f_equal; divmod_lia.
    + replace (N.of_nat (length (a / 4 :: (a mod 4 * 16 + b / 16)
                 :: (b mod 16 * 4 + c / 64) :: c mod 64 :: sx)))
        with (N.of_nat (length sx) + 4) by (simpl length; lia).
      replace ((N.of_nat (length sx) + 4) mod 4)
        with (N.of_nat (length sx) mod 4) by divmod_lia.
      exact Hpad.
Qed.

Lemma length_mod_eqb (s : list N) (k : N) :
  N.of_nat (length s) mod 4 = k -> (N.of_nat (length s) mod 4 =? k) = true.
Proof. intros ->. apply N.eqb_refl. Qed.

Lemma stripPadding_none (m : list N) (c : N) :
  c ≠ 61 -> Platform.stripPadding (m ++ [c]) = m ++ [c].
Proof.
  intros Hc. unfold Platform.stripPadding. case_match; [|done].
  rewrite rev_app_distr. simpl. not_padding c.
Qed.

Lemma stripPadding_two (m : list N) :
  N.of_nat (length (m ++ [61; 61])) mod 4 = 0 ->
  Platform.stripPadding (m ++ [61; 61]) = m.
Proof.
  intros Hlen. unfold Platform.stripPadding.
  rewrite (length_mod_eqb _ _ Hlen), rev_app_distr. simpl.
  apply rev_involutive.
Qed.

Lemma stripPadding_one (m : list N) (c : N) :
  c ≠ 61 ->
  N.of_nat (length (m ++ [c; 61])) mod 4 = 0 ->
  Platform.stripPadding (m ++ [c; 61]) = m ++ [c].
Proof.
  intros Hc Hlen. unfold Platform.stripPadding.
  rewrite (length_mod_eqb _ _ Hlen), rev_app_distr. simpl.
  transitivity (rev (c :: rev m)); [|simpl; by rewrite rev_involutive].
  not_padding c.
Qed.

(** Decoding what [btoa] produced gives the text back. *)
Lemma atob_btoa (thrown thrown' : JsString) (s encoded : JsString) :
  Platform.btoa thrown s = Return encoded ->
  Platform.atob thrown' encoded = Return s.
Proof.
  unfold Platform.btoa. destruct (Platform.isLatin1 s) eqn:Hlatin; [|done].
  intros [= <-].
  destruct (encodeBytes_sextets s Hlatin) as (sx & pad & -> & Hsx & Hdec & Hpad).
  unfold Platform.atob.
  assert (Forall (fun c => c = 61) pad) as Hpad61.
  { destruct Hpad as [[-> _]|[[-> _]|[-> _]]]; repeat constructor. }
  rewrite (filter_b64char _ _ Hpad61).
  assert (Platform.stripPadding (map Platform.b64char sx ++ pad)
          = map Platform.b64char sx) as ->.
  { destruct Hpad as [[-> Hlen]|[[-> Hlen]|[-> Hlen]]].
    - rewrite app_nil_r.
      destruct sx as [|i sx0] using rev_ind; [done|].
      rewrite map_app. simpl. apply stripPadding_none, b64char_not_padding.
    - apply stripPadding_two. rewrite length_app, length_map. simpl length.
      divmod_lia.
    - destruct sx as [|i sx0 _] using rev_ind; [done|].
      rewrite map_app, <- app_assoc. simpl.
      apply stripPadding_one; [apply b64char_not_padding|].
      rewrite length_app, length_map. rewrite length_app in Hlen.
      simpl length in *. divmod_lia. }
  rewrite length_map.
  assert ((N.of_nat (length sx) mod 4 =? 1) = false) as ->.
  { apply N.eqb_neq. destruct Hpad as [[_ ->]|[[_ ->]|[_ ->]]]; done. }
  by rewrite (sextets_b64char _ Hsx), Hdec.
Qed.

Lemma atob_removeNewlines (message : JsString) (s : JsString) :
  Platform.atob message (Platform.removeNewlines s) = Platform.atob message s.
Proof.
  unfold Platform.atob, Platform.removeNewlines.
  assert (filter (fun c => Platform.isAsciiWhitespace c = false)
            (filter (fun c => c ≠ 10) s)
          = filter (fun c => Platform.isAsciiWhitespace c = false) s) as ->;
    [|done].
  induction s as [|c s IH]; [done|].
  destruct (decide (c = 10)) as [->|Hc].
  - rewrite (filter_cons_False _ 10) by (intros H; by apply H).
    rewrite (filter_cons_False _ 10) by done. exact IH.
  - rewrite (filter_cons_True (fun c => c ≠ 10)) by done.
    rewrite !filter_cons, IH. done.
Qed.

Lemma encodeBytes_nil (s : JsString) : Platform.encodeBytes s = [] -> s = [].
Proof. by destruct s as [|a [|b [|c rest]]]. Qed.

(** *** Truthiness and the token *)

Lemma truthy_false (s : JsString) : truthy s = false <-> s = [].
Proof. by destruct s. Qed.

Lemma truthy_true (s : JsString) : truthy s = true <-> s ≠ [].
Proof. by destruct s. Qed.

(** No token is configured exactly when the variable is unset or empty. *)
Lemma token_nil (env : Env) :
  token env = []
  <-> NEXT_PUBLIC_GITHUB_TOKEN env = None \/ NEXT_PUBLIC_GITHUB_TOKEN env = Some [].
Proof.
  unfold token, orElse.
  destruct (NEXT_PUBLIC_GITHUB_TOKEN env) as [[|c s]|]; simpl.
  - split; [by right|done].
  - split; [done|]. by intros [?|?].
  - split; [by left|done].
Qed.

(** ** The sample session *)

Example loaded_files : files (state Sample.loaded) = [Sample.contentDir].
Proof. vm_compute. reflexivity. Qed.

Example loaded_cache :
  folderContents (state Sample.loaded) !! js "content"
  = Some [Sample.docsDir; Sample.post].
Proof. vm_compute. reflexivity. Qed.

Example loaded_log : length (exchanges Sample.loaded) = 3%nat.
Proof. vm_compute. reflexivity. Qed.

Example editing_selected :
  selectedFile (state Sample.editing)
  = Some (fileContentOf Sample.postResponse (js "Hello")).
Proof. vm_compute. reflexivity. Qed.

Example editing_commitMessage :
  commitMessage (state Sample.editing) = js "Update post.mdx".
Proof. vm_compute. reflexivity. Qed.

Example post_is_mdx : isMdxFile (js "Post.MDX") = true.
Proof. reflexivity. Qed.

(** ** Guards of the save operation *)

(** C10: without a selected file, without a token, or with a commit message
    that is empty or white space only, [saveFileContent] returns after
    setting an error message; it sends nothing and leaves the selected file,
    the file list and the folder cache as they were. *)
Theorem saveFileContent_guarded (env : Env) (net : Network) (r : State) (w : World) :
  selectedFile r = None \/ token env = []
  \/ forallb Platform.isWhiteSpace (commitMessage r) = true ->
  let w' := snd (saveFileContent env net r w) in
  fst (saveFileContent env net r w) = Return tt
  /\ (error (state w') = Some (js "GitHub token is required to save files")
      \/ error (state w') = Some (js "Commit message is required"))
  /\ exchanges w' = exchanges w
  /\ selectedFile (state w') = selectedFile (state w)
  /\ files (state w') = files (state w)
  /\ folderContents (state w') = folderContents (state w).
Proof.
  intros H. unfold saveFileContent.
  destruct (selectedFile r) as [selected|]; [|handler_simpl; tauto].
  destruct (truthy (token env)) eqn:Htok; [|handler_simpl; tauto].
  destruct H as [H|[H|H]]; [done| |].
  - rewrite H in Htok. done.
  - apply trim_nil in H. rewrite H. handler_simpl. tauto.
Qed.

Lemma saveFileContent_guarded_witness :
  let r := with_commitMessage (js "   ") (state Sample.editing) in
  let w' := snd (saveFileContent Sample.env Sample.net r Sample.editing) in
  error (state w') = Some (js "Commit message is required")
  /\ exchanges w' = exchanges Sample.editing.
Proof.
  intros r w'.
  destruct (saveFileContent_guarded Sample.env Sample.net r Sample.editing)
    as (_ & _ & Hex & _).
  - right. right. reflexivity.
  - split; [vm_compute; reflexivity | exact Hex].
Defined.

(** ** The root listing *)

(** The banner text has the folder name in double quotes. *)
Example noContentFolder_text :
  noContentFolder
  = js "No " ++ N_of_ascii "034" :: js "content" ++ N_of_ascii "034"
    :: js " folder found in this repository".
Proof. reflexivity. Qed.



(** ** The exchanges of one handler *)

(** What a handler adds to the log: nothing, one exchange, or two of which
    the earlier one succeeded; two only for a save and for the root load. *)
Lemma handler_log (env : Env) (net : Network) (ev : Event) (r : State) (w : World) :
  let w' := snd (handler env net ev r w) in
  owner (state w') = owner (state w)
  /\ repo (state w') = repo (state w)
  /\ exists new,
       exchanges w' = new ++ exchanges w
       /\ Forall (sentBy env r) new
       /\ (new = []
           \/ (exists ex, new = [ex])
           \/ (exists ex2 ex1, new = [ex2; ex1] /\ ~ isFailure ex1
                               /\ (ev = ClickSave \/ ev = RunAutoFetch))).
Proof.
  destruct ev; unfold_handlers; handler_simpl.
  all: repeat case_match; simpl; simplify_eq.
  all: split; [done|split; [done|]].
  all: first
    [ exists []; split; [reflexivity|]; split; [constructor|]; by left
    | eexists [_]; split; [reflexivity|]; split;
      [repeat constructor|right; left; by eexists]
    | eexists [_; _]; split; [reflexivity|]; split;
      [repeat constructor|right; right; do 2 eexists; split; [reflexivity|];
       split; [unfold isFailure; simpl; tauto|tauto]] ].
Qed.

(** No exception leaves a handler: what is thrown inside is caught inside. *)
Lemma handler_returns (env : Env) (net : Network) (ev : Event) (r : State) (w : World) :
  fst (handler env net ev r w) = Return tt.
Proof.
  destruct ev; unfold_handlers; handler_simpl.
  all: repeat case_match; simpl; simplify_eq; done.
Qed.

(** ** Sessions *)

Lemma run_snoc (env : Env) (net : Network) (evs : list Event) (ev : Event) (w : World) :
  run env net (evs ++ [ev]) w = step env net ev (run env net evs w).
Proof. unfold run. by rewrite fold_left_app. Qed.

(** An invariant of sessions: it holds of the first render and every handled
    event keeps it. *)
Lemma session_invariant (env : Env) (net : Network) (I : World -> Prop) :
  I (initialWorld env) ->
  (forall ev w, I w -> I (step env net ev w)) ->
  forall evs, I (run env net evs (initialWorld env)).
Proof.
  intros Hinit Hstep evs.
  induction evs as [|ev evs IH] using rev_ind; [exact Hinit|].
  rewrite run_snoc. by apply Hstep.
Qed.

Lemma configurationKept_step (env : Env) (net : Network) (ev : Event) (w : World) :
  configurationKept env w -> configurationKept env (step env net ev w).
Proof.
  intros (Howner & Hrepo & Hlog). unfold step.
  destruct (handler_log env net ev (state w) w)
    as (Ho & Hr & new & Hnew & Hsent & _).
  split; [congruence|]. split; [congruence|].
  rewrite Hnew. apply Forall_app. split; [|exact Hlog].
  eapply Forall_impl; [exact Hsent|].
  intros ex (Ha & Hb & Hc). unfold sentBy in *. split; [done|].
  split; congruence.
Qed.

(** The variables that are set and not empty are the configured values. *)
Lemma configured_from_env (env : Env) :
  (forall o, NEXT_PUBLIC_GITHUB_OWNER env = Some o -> o ≠ [] ->
             configuredOwner env = o)
  /\ (forall n, NEXT_PUBLIC_GITHUB_REPO env = Some n -> n ≠ [] ->
                configuredRepo env = n)
  /\ (forall t, NEXT_PUBLIC_GITHUB_TOKEN env = Some t -> t ≠ [] ->
                createOctokitInstance env = Some t).
Proof.
  unfold configuredOwner, configuredRepo, createOctokitInstance, token, orElse.
  repeat split; intros s -> Hs; by destruct s.
Qed.

(** C8: the owner, the repository name and the token come from the
    environment when the component starts and do not change during a
    session; every request of the session carries them. *)
Theorem session_uses_configuration (env : Env) (net : Network) (evs : list Event) :
  let w := run env net evs (initialWorld env) in
  owner (state w) = orElse (NEXT_PUBLIC_GITHUB_OWNER env) (js "B0llu")
  /\ repo (state w) = orElse (NEXT_PUBLIC_GITHUB_REPO env) (js "ocktokit-poc")
  /\ Forall (fun ex =>
               requestAuth (request ex)
                 = (if truthy (orElse (NEXT_PUBLIC_GITHUB_TOKEN env) [])
                    then Some (orElse (NEXT_PUBLIC_GITHUB_TOKEN env) [])
                    else None)
               /\ requestOwner (request ex) = owner (state w)
               /\ requestRepo (request ex) = repo (state w))
       (exchanges w).
Proof.
  assert (configurationKept env (initialWorld env)) as Hinit
    by (repeat split; constructor).
  destruct (session_invariant env net (configurationKept env) Hinit
              (configurationKept_step env net) evs) as (Ho & Hr & Hlog).
  simpl. split; [exact Ho|]. split; [exact Hr|].
  eapply Forall_impl; [exact Hlog|].
  intros ex (Ha & Hb & Hc). rewrite Ho, Hr. done.
Qed.

Lemma snapshotFetched_step (env : Env) (net : Network) (ev : Event) (w : World) :
  snapshotFetched env w -> snapshotFetched env (step env net ev w).
Proof.
  intros Hinv. unfold step, snapshotFetched in *.
  destruct ev; unfold_handlers; handler_simpl.
  all: repeat case_match; simpl in *; simplify_eq.
  all: intros selected Hsel; simpl in Hsel; simplify_eq.
  all: first
    [ edestruct Hinv as (auth' & p' & fd' & c' & Hin' & Hd' & Heq');
      [eassumption || reflexivity|];
      exists auth', p', fd', c'; simpl;
      split; [set_solver|split; [exact Hd'|congruence]]
    | simpl; do 4 eexists; (split; [|split; [|reflexivity]]);
      [|eassumption];
      first [ apply list_elem_of_here
            | apply list_elem_of_further, list_elem_of_here ] ].
Qed.

(** ** Saving *)

(** What a save that passes its guards does first: it encodes the content
    and sends one PUT with the selected file's path and hash. *)
Lemma saveFileContent_put (env : Env) (net : Network) (r : State) (w : World)
    (selected : FileContent.t) (encodedContent : JsString) :
  selectedFile r = Some selected ->
  token env ≠ [] ->
  Platform.trim (commitMessage r) ≠ [] ->
  Platform.btoa (btoaErrorMessage env) (contentToSave r (mdxEditorRef w))
    = Return encodedContent ->
  exists later rp,
    exchanges (snd (saveFileContent env net r w))
    = later
      ++ mkExchange
           (PUT_contents (createOctokitInstance env)
              (commitOf r selected encodedContent)) rp
         :: exchanges w
    /\ (later = [] \/ exists ex, later = [ex]).
Proof.
  intros Hsel Htok Hmsg Henc. unfold saveFileContent, commitOf.
  apply truthy_true in Htok, Hmsg. rewrite Hsel, Htok, Hmsg. simpl.
  unfold fetchFileContent. handler_simpl. rewrite Henc. simpl.
  repeat case_match; simpl; simplify_eq.
  all: first [ by eexists [], _; split; [reflexivity|left]
             | eexists [_], _; split; [reflexivity|right; by eexists] ].
Qed.

(** The saves that do what the specification says.  In any session, a save
    that passes its guards and whose text has no code unit above U+00FF
    sends a PUT with the base64 encoding of that text, from which [atob]
    gives the text back, and with the content hash of the selected file,
    which is the hash the API returned when the file was fetched.  The text
    is what the MDX editor returns when the MDX mode is on and the editor is
    mounted, and the content of the text area otherwise. *)
Lemma save_sends_base64_and_sha (env : Env) (net : Network) (evs : list Event)
    (selected : FileContent.t) (text : JsString) :
  let w := run env net evs (initialWorld env) in
  selectedFile (state w) = Some selected ->
  token env ≠ [] ->
  Platform.trim (commitMessage (state w)) ≠ [] ->
  (if isMdxEditorMode (state w)
   then mdxEditorRef w = Some text
        \/ (mdxEditorRef w = None /\ editedContent (state w) = text)
   else editedContent (state w) = text) ->
  Platform.isLatin1 text = true ->
  (exists later rp,
     exchanges (step env net ClickSave w)
     = later
       ++ mkExchange
            (PUT_contents (createOctokitInstance env)
               {| CreateOrUpdateFileContents.owner := owner (state w);
                  CreateOrUpdateFileContents.repo := repo (state w);
                  CreateOrUpdateFileContents.path := FileContent.path selected;
                  CreateOrUpdateFileContents.message := commitMessage (state w);
                  CreateOrUpdateFileContents.content := Platform.encodeBytes text;
                  CreateOrUpdateFileContents.sha := FileContent.sha selected;
                  CreateOrUpdateFileContents.branch := selectedBranch (state w) |})
            rp
          :: exchanges w)
  /\ (forall message,
        Platform.atob message (Platform.encodeBytes text) = Return text)
  /\ (exists auth p fileData,
        mkExchange (GET_contents auth p) (Content (Single fileData))
          ∈ exchanges w
        /\ GitHubFileResponse.sha fileData = FileContent.sha selected
        /\ GitHubFileResponse.path fileData = FileContent.path selected).
Proof.
  intros w Hsel Htok Hmsg Htext Hlatin.
  assert (contentToSave (state w) (mdxEditorRef w) = text) as Hcontent.
  { unfold contentToSave. destruct (isMdxEditorMode (state w)); [|done].
    destruct Htext as [->|[-> ?]]; done. }
  assert (Platform.btoa (btoaErrorMessage env)
            (contentToSave (state w) (mdxEditorRef w))
          = Return (Platform.encodeBytes text)) as Henc.
  { rewrite Hcontent. unfold Platform.btoa. by rewrite Hlatin. }
  split; [|split].
  - destruct (saveFileContent_put env net (state w) w selected _
                Hsel Htok Hmsg Henc) as (later & rp & Hlog & _).
    by exists later, rp.
  - intros message. eapply atob_btoa. rewrite Hcontent in Henc. exact Henc.
  - assert (snapshotFetched env w) as Hinv.
    { apply session_invariant; [by intros s Hs|].
      apply snapshotFetched_step. }
    destruct (Hinv selected Hsel) as (auth & p & fd & c & Hin & _ & ->).
    by exists auth, p, fd.
Qed.

Lemma save_sends_base64_and_sha_witness :
  let w := run Sample.env Sample.net
             [RunInitialLoad; RunBranchChanged; RunAutoFetch;
              ClickTreeItem Sample.post; ClickEdit true;
              EditorMounted (js "Hello"); ChangeSource (js "Hello?");
              EditorChanged (js "Hello!")] (initialWorld Sample.env) in
  editedContent (state w) = js "Hello?"
  /\ exists later rp,
       exchanges (step Sample.env Sample.net ClickSave w)
       = later
         ++ mkExchange
              (PUT_contents (Some (js "ghp_token"))
                 {| CreateOrUpdateFileContents.owner := js "octo";
                    CreateOrUpdateFileContents.repo := js "site";
                    CreateOrUpdateFileContents.path := js "content/post.mdx";
                    CreateOrUpdateFileContents.message := js "Update post.mdx";
                    CreateOrUpdateFileContents.content := js "SGVsbG8h";
                    CreateOrUpdateFileContents.sha := js "f1";
                    CreateOrUpdateFileContents.branch := js "main" |})
              rp
            :: exchanges w.
Proof.
  intros w. split; [vm_compute; reflexivity|].
  refine (proj1 (save_sends_base64_and_sha Sample.env Sample.net
            [RunInitialLoad; RunBranchChanged; RunAutoFetch;
             ClickTreeItem Sample.post; ClickEdit true;
             EditorMounted (js "Hello"); ChangeSource (js "Hello?");
             EditorChanged (js "Hello!")]
            (fileContentOf Sample.postResponse (js "Hello"))
            (js "Hello!") _ _ _ _ _)).
  - vm_compute. reflexivity.
  - vm_compute. discriminate.
  - vm_compute. discriminate.
  - vm_compute. left. reflexivity.
  - vm_compute. reflexivity.
Defined.

(** The course of a save whose PUT is accepted. *)
Lemma saveFileContent_accepted (env : Env) (net : Network) (r : State) (w : World)
    (selected : FileContent.t) (encodedContent : JsString) :
  selectedFile r = Some selected ->
  token env ≠ [] ->
  Platform.trim (commitMessage r) ≠ [] ->
  Platform.btoa (btoaErrorMessage env) (contentToSave r (mdxEditorRef w))
    = Return encodedContent ->
  net_createOrUpdateFileContents net (exchanges w) (createOctokitInstance env)
    (commitOf r selected encodedContent) = Return tt ->
  let w' := snd (saveFileContent env net r w) in
  let put :=
    mkExchange
      (PUT_contents (createOctokitInstance env)
         (commitOf r selected encodedContent)) Committed in
  fst (saveFileContent env net r w) = Return tt
  /\ isEditing (state w') = false
  /\ isMdxEditorMode (state w') = false
  /\ commitMessage (state w') = []
  /\ saveLoading (state w') = false
  /\ exists rp,
       exchanges w'
       = mkExchange
           (GET_contents (createOctokitInstance env)
              (contentsOf r (FileContent.path selected))) rp
         :: put :: exchanges w
       /\ forall fileData content,
            rp = Content (Single fileData) ->
            GitHubFileResponse.type fileData = file ->
            decodeContent env fileData = Return content ->
            selectedFile (state w') = Some (fileContentOf fileData content)
            /\ error (state w') = None.
Proof.
  intros Hsel Htok Hmsg Henc Hput. unfold saveFileContent, commitOf in *.
  apply truthy_true in Htok, Hmsg. rewrite Hsel, Htok, Hmsg. simpl.
  unfold fetchFileContent, contentsOf. handler_simpl.
  rewrite Henc. simpl. rewrite Hput. simpl.
  repeat case_match; simpl; simplify_eq.
  all: repeat (split; [done|]).
  all: eexists; split; [reflexivity|].
  all: intros fd c ? Hty Hdec; simplify_eq; simpl.
  all: try (split; [congruence|done]).
  all: try congruence.
  all: by rewrite bool_decide_eq_true_2 in * by done.
Qed.



(** A file response that carries what [btoa] produced, with line feeds put
    in anywhere, decodes to the text that was encoded. *)
Lemma decodeContent_btoa (env : Env) (message : JsString)
    (fileData : GitHubFileResponse.t) (text encoded served : JsString) :
  Platform.btoa message text = Return encoded ->
  GitHubFileResponse.content fileData = Some served ->
  Platform.removeNewlines served = encoded ->
  GitHubFileResponse.encoding fileData = Some (js "base64") ->
  decodeContent env fileData = Return text.
Proof.
  intros Henc Hcontent Hserved Hencoding. unfold decodeContent.
  rewrite Hcontent, Hencoding.
  destruct served as [|c served]; simpl.
  - subst encoded. unfold Platform.btoa in Henc. case_match; [|done].
    injection Henc as Henc. by rewrite (encodeBytes_nil _ Henc).
  - rewrite ?bool_decide_eq_true_2 by done.
    rewrite Hserved. by eapply atob_btoa.
Qed.

(** X19: when the API then serves the committed content, broken into lines
    by line feeds as the contents endpoint does, the displayed text is the
    text that was saved: encoding for the PUT, and removing the line feeds
    and decoding after the read that follows, are inverse to each other. *)
Lemma saved_text_is_shown (env : Env) (net : Network) (r : State) (w : World)
    (selected : FileContent.t) (encodedContent served : JsString)
    (fileData : GitHubFileResponse.t) :
  selectedFile r = Some selected ->
  token env ≠ [] ->
  Platform.trim (commitMessage r) ≠ [] ->
  Platform.btoa (btoaErrorMessage env) (contentToSave r (mdxEditorRef w))
    = Return encodedContent ->
  net_createOrUpdateFileContents net (exchanges w) (createOctokitInstance env)
    (commitOf r selected encodedContent) = Return tt ->
  net_getContent net
    (mkExchange
       (PUT_contents (createOctokitInstance env)
          (commitOf r selected encodedContent)) Committed
     :: exchanges w)
    (createOctokitInstance env) (contentsOf r (FileContent.path selected))
  = Return (Single fileData) ->
  GitHubFileResponse.type fileData = file ->
  GitHubFileResponse.content fileData = Some served ->
  Platform.removeNewlines served = encodedContent ->
  GitHubFileResponse.encoding fileData = Some (js "base64") ->
  selectedFile (state (snd (saveFileContent env net r w)))
  = Some (fileContentOf fileData (contentToSave r (mdxEditorRef w))).
Proof.
  intros Hsel Htok Hmsg Henc Hput Hget Hty Hcontent Hserved Hencoding.
  destruct (saveFileContent_accepted env net r w selected encodedContent)
    as (_ & _ & _ & _ & _ & rp & Hlog & Hshow); try done.
  apply (Hshow fileData); [|done|by eapply decodeContent_btoa].
  revert Hlog. unfold saveFileContent, fetchFileContent, commitOf, contentsOf in *.
  apply truthy_true in Htok, Hmsg. rewrite Hsel, Htok, Hmsg. simpl.
  handler_simpl. rewrite Henc. simpl. rewrite Hput. simpl. rewrite Hget. simpl.
  rewrite bool_decide_eq_true_2 by done.
  destruct (decodeContent env fileData); simpl; by intros [= <-].
Qed.

(** X20: a text with a code unit above U+00FF cannot be committed: [btoa]
    throws, nothing is sent, the banner shows the message that the platform
    gave the exception, and the editor stays open with the text. *)
Lemma saveFileContent_unencodable (env : Env) (net : Network) (r : State)
    (w : World) (selected : FileContent.t) :
  selectedFile r = Some selected ->
  token env ≠ [] ->
  Platform.trim (commitMessage r) ≠ [] ->
  Platform.isLatin1 (contentToSave r (mdxEditorRef w)) = false ->
  let w' := snd (saveFileContent env net r w) in
  exchanges w' = exchanges w
  /\ error (state w') = Some (btoaErrorMessage env)
  /\ saveLoading (state w') = false
  /\ isEditing (state w') = isEditing (state w)
  /\ editedContent (state w') = editedContent (state w)
  /\ selectedFile (state w') = selectedFile (state w).
Proof.
  intros Hsel Htok Hmsg Hlatin. unfold saveFileContent.
  apply truthy_true in Htok, Hmsg. rewrite Hsel, Htok, Hmsg. simpl.
  handler_simpl. unfold Platform.btoa. rewrite Hlatin. done.
Qed.

(** C1: the component does not meet the claim for every save.  In the
    sample session the text area holds [H] followed by the sparkles sign
    U+2728, a file is selected, a token is configured and the commit message
    is the default one, so the Save button is enabled; the click sends
    nothing: [btoa] throws on the code unit above U+00FF, the message of the
    exception goes to the banner and the editor stays open with the text. *)
Theorem save_of_wide_text_sends_nothing :
  let w := run Sample.env Sample.net
             [RunInitialLoad; RunBranchChanged; RunAutoFetch;
              ClickTreeItem Sample.post; ClickEdit false;
              ChangeSource [72; 10024]] (initialWorld Sample.env) in
  let w' := step Sample.env Sample.net ClickSave w in
  rendered Sample.env ClickSave (state w) = true
  /\ contentToSave (state w) (mdxEditorRef w) = [72; 10024]
  /\ exchanges w' = exchanges w
  /\ error (state w') = Some (btoaErrorMessage Sample.env)
  /\ isEditing (state w') = true
  /\ editedContent (state w') = [72; 10024].
Proof. vm_compute. repeat split. Qed.

(** ** Failures *)

(** C7: a handler sends nothing after a call of its own has failed: the
    failed exchange is the last one it adds to the log, so the request is
    not tried again and nothing is fetched to make up for it. *)
Theorem failed_call_ends_handler (env : Env) (net : Network) (ev : Event)
    (r : State) (w : World) :
  exists new,
    exchanges (snd (handler env net ev r w)) = new ++ exchanges w
    /\ forall later ex earlier,
         new = later ++ ex :: earlier -> isFailure ex -> later = [].
Proof.
  destruct (handler_log env net ev r w) as (_ & _ & new & Hnew & _ & Hshape).
  exists new. split; [exact Hnew|].
  intros later ex earlier Heq Hfail.
  destruct Hshape as [->|[[ex1 ->]|(ex2 & ex1 & -> & Hok & _)]].
  - by destruct later.
  - destruct later as [|? [|? ?]]; simpl in Heq; by simplify_eq.
  - destruct later as [|? [|? [|? ?]]]; simpl in Heq; simplify_eq;
      [done|contradiction].
Qed.

Lemma failed_call_ends_handler_witness :
  let ex :=
    mkExchange
      (PUT_contents (Some (js "ghp_token"))
         (commitOf (state Sample.editing)
            (fileContentOf Sample.postResponse (js "Hello")) (js "SGVsbG8h")))
      (Failed (ErrorObj (js "Network Error"))) in
  exchanges (snd (handler Sample.env Sample.offline ClickSave
                    (state Sample.editing) Sample.editing))
  = [ex] ++ exchanges Sample.editing
  /\ isFailure ex
  /\ forall later ex' earlier,
       [ex] = later ++ ex' :: earlier -> isFailure ex' -> later = [].
Proof.
  intros ex.
  destruct (failed_call_ends_handler Sample.env Sample.offline ClickSave
              (state Sample.editing) Sample.editing) as (new & Hnew & Hlast).
  assert (exchanges (snd (handler Sample.env Sample.offline ClickSave
                            (state Sample.editing) Sample.editing))
          = [ex] ++ exchanges Sample.editing) as Hlog
    by (vm_compute; reflexivity).
  rewrite Hlog in Hnew. apply app_inv_tail in Hnew. subst new.
  split; [exact Hlog|]. split; [exact I|exact Hlast].
Defined.

(** C2, as the specification states it, fails: offline, expanding a folder
    that is not cached ends with a failed exchange and an empty banner. *)
Lemma folder_failure_not_in_banner :
  (let w' := snd (handler Sample.env Sample.offline
                    (ClickTreeItem Sample.docsDir)
                    (state Sample.loaded) Sample.loaded) in
   exchanges w'
   = mkExchange
       (GET_contents (Some (js "ghp_token"))
          {| GetContent.owner := js "octo"; GetContent.repo := js "site";
             GetContent.path := js "content/docs";
             GetContent.ref := js "main" |})
       (Failed (ErrorObj (js "Network Error")))
     :: exchanges Sample.loaded
   /\ error (state w') = None)
  /\ ~ every_failure_reaches_banner.
Proof.
  split; [split; vm_compute; reflexivity|].
  intros Hclaim.
  pose (ex := mkExchange
       (GET_contents (Some (js "ghp_token"))
          {| GetContent.owner := js "octo"; GetContent.repo := js "site";
             GetContent.path := js "content/docs";
             GetContent.ref := js "main" |})
       (Failed (ErrorObj (js "Network Error")))).
  specialize (Hclaim Sample.env Sample.offline (ClickTreeItem Sample.docsDir)
                (state Sample.loaded) Sample.loaded [ex] ex).
  destruct Hclaim as [msg Hmsg].
  - vm_compute. reflexivity.
  - apply list_elem_of_here.
  - exact I.
  - vm_compute in Hmsg. discriminate Hmsg.
Qed.

(** C2, amended: no handler lets an exception escape.  A failed call of
    [fetchBranches], [fetchRepoContents], [fetchFileContent] or
    [saveFileContent] (the PUT, or the read that follows it) is caught in
    the function that made it and the thrown error's message, or a fixed
    text when the thrown value is not an error, is put in the banner; a
    failed call of [fetchFolderContents] is caught and written to the
    console only, the banner staying as it was. *)
Theorem failures_reported (env : Env) (net : Network) (r : State) (w : World)
    (e : Thrown) :
  (forall ev, fst (handler env net ev r w) = Return tt)
  /\ (net_listBranches net (exchanges w) (createOctokitInstance env)
     {| ListBranches.owner := owner r; ListBranches.repo := repo r |} = Throw e ->
   error (state (snd (fetchBranches env net r w)))
   = Some (errorMessage e (js "Failed to fetch branches")))
  /\ (forall path,
        net_getContent net (exchanges w) (createOctokitInstance env)
          (contentsOf r path) = Throw e ->
        error (state (snd (fetchRepoContents env net r path w)))
        = Some (errorMessage e (js "Failed to fetch repository contents"))
        /\ error (state (snd (fetchFileContent env net r path w)))
           = Some (errorMessage e (js "Failed to fetch file content"))
        /\ error (state (snd (fetchFolderContents env net r path w)))
           = error (state w)
        /\ console (snd (fetchFolderContents env net r path w))
           = (js "Failed to fetch contents for " ++ path ++ js ":", e)
             :: console w)
  /\ (forall selected encodedContent,
        selectedFile r = Some selected ->
        token env ≠ [] ->
        Platform.trim (commitMessage r) ≠ [] ->
        Platform.btoa (btoaErrorMessage env) (contentToSave r (mdxEditorRef w))
          = Return encodedContent ->
        (net_createOrUpdateFileContents net (exchanges w)
           (createOctokitInstance env) (commitOf r selected encodedContent)
         = Throw e ->
         error (state (snd (saveFileContent env net r w)))
         = Some (errorMessage e (js "Failed to save file")))
        /\ (net_createOrUpdateFileContents net (exchanges w)
              (createOctokitInstance env) (commitOf r selected encodedContent)
            = Return tt ->
            net_getContent net
              (mkExchange
                 (PUT_contents (createOctokitInstance env)
                    (commitOf r selected encodedContent)) Committed
               :: exchanges w)
              (createOctokitInstance env)
              (contentsOf r (FileContent.path selected)) = Throw e ->
            error (state (snd (saveFileContent env net r w)))
            = Some (errorMessage e (js "Failed to fetch file content")))).
Proof.
  split; [|split; [|split]].
  - intros ev. apply handler_returns.
  - intros Hnet. unfold fetchBranches. handler_simpl. by rewrite Hnet.
  - intros path Hnet.
    unfold fetchRepoContents, fetchFileContent, fetchFolderContents, contentsOf in *.
    handler_simpl. by rewrite Hnet.
  - intros selected enc Hsel Htok Hmsg Henc.
    unfold saveFileContent, fetchFileContent, commitOf, contentsOf in *.
    apply truthy_true in Htok, Hmsg. rewrite Hsel, Htok, Hmsg. simpl.
    handler_simpl. rewrite Henc. simpl.
    split.
    + intros Hput. by rewrite Hput.
    + intros Hput Hget. rewrite Hput. simpl. by rewrite Hget.
Qed.

Lemma failures_reported_witness :
  error (state (snd (fetchFileContent Sample.env Sample.offline
                       (state Sample.loaded) (js "content/post.mdx")
                       Sample.loaded)))
  = Some (js "Network Error")
  /\ error (state (snd (saveFileContent Sample.env Sample.offline
                          (state Sample.editing) Sample.editing)))
     = Some (js "Network Error").
Proof.
  destruct (failures_reported Sample.env Sample.offline (state Sample.loaded)
              Sample.loaded (ErrorObj (js "Network Error")))
    as (_ & _ & Hget & _).
  destruct (failures_reported Sample.env Sample.offline (state Sample.editing)
              Sample.editing (ErrorObj (js "Network Error")))
    as (_ & _ & _ & Hsave).
  split.
  - destruct (Hget (js "content/post.mdx") eq_refl) as (_ & Hfile & _).
    exact Hfile.
  - destruct (Hsave (fileContentOf Sample.postResponse (js "Hello"))
                (js "SGVsbG8h")) as [Hput _].
    + vm_compute. reflexivity.
    + vm_compute. discriminate.
    + vm_compute. discriminate.
    + vm_compute. reflexivity.
    + apply Hput. reflexivity.
Defined.

(** ** Round trips per event *)

(** C6, as the specification states it, fails: an accepted save makes two
    round trips, the PUT and the read that refreshes the file. *)
Lemma save_makes_two_calls :
  length (exchanges (snd (handler Sample.env Sample.net ClickSave
                            (state Sample.editing) Sample.editing)))
  = S (S (length (exchanges Sample.editing)))
  /\ ~ one_call_per_action.
Proof.
  split; [vm_compute; reflexivity|].
  intros Hclaim.
  specialize (Hclaim Sample.env Sample.net ClickSave (state Sample.editing)
                Sample.editing).
  vm_compute in Hclaim. lia.
Qed.

(** C6, amended: the calls of a handler are made one after the other and
    there are at most two of them; only a save and the root load make a
    second call, and only after the first one has been answered without a
    failure; every other event makes at most one. *)
Theorem at_most_two_calls (env : Env) (net : Network) (ev : Event)
    (r : State) (w : World) :
  exists new,
    exchanges (snd (handler env net ev r w)) = new ++ exchanges w
    /\ (length new <= 2)%nat
    /\ (ev ≠ ClickSave -> ev ≠ RunAutoFetch -> (length new <= 1)%nat)
    /\ (forall second first, new = [second; first] -> ~ isFailure first).
Proof.
  destruct (handler_log env net ev r w) as (_ & _ & new & Hnew & _ & Hshape).
  exists new. split; [exact Hnew|].
  destruct Hshape as [->|[[ex ->]|(ex2 & ex1 & -> & Hok & Hev)]]; simpl.
  - repeat split; try lia. intros; discriminate.
  - repeat split; try lia. intros; discriminate.
  - split; [lia|]. split.
    + intros Hsave Hfetch. by destruct Hev.
    + intros second first ?. by simplify_eq.
Qed.

Lemma at_most_two_calls_witness :
  exists new,
    exchanges (snd (handler Sample.env Sample.net (ClickTreeItem Sample.docsDir)
                      (state Sample.loaded) Sample.loaded))
    = new ++ exchanges Sample.loaded
    /\ (length new <= 1)%nat.
Proof.
  destruct (at_most_two_calls Sample.env Sample.net
              (ClickTreeItem Sample.docsDir) (state Sample.loaded)
              Sample.loaded) as (new & Hnew & _ & Hone & _).
  exists new. split; [exact Hnew|].
  apply Hone; discriminate.
Defined.

(** ** What navigation keeps *)

(** C3, as the specification states it, fails: after a folder is expanded
    the listing cached for another folder is still there. *)
Lemma expanding_keeps_cache :
  folderContents
    (state (snd (toggleFolder Sample.env Sample.net (state Sample.loaded)
                   (js "content/docs") Sample.loaded)))
    !! js "content"
  = Some [Sample.docsDir; Sample.post]
  /\ ~ navigation_discards_cache.
Proof.
  split; [vm_compute; reflexivity|].
  intros Hclaim.
  specialize (Hclaim Sample.env Sample.net (state Sample.loaded) Sample.loaded
                (js "content/docs") (js "content")).
  assert (js "content" ≠ js "content/docs") as Hne by (vm_compute; discriminate).
  specialize (Hclaim Hne). vm_compute in Hclaim. discriminate Hclaim.
Qed.

(** C3, amended: when the branch has changed, the set of expanded folders,
    the folder cache and the file snapshot are emptied.  Navigation keeps
    state: expanding or collapsing a folder leaves the file list, the file
    snapshot and every cached listing of another folder as they are and
    never removes a path from the cache; selecting a file leaves the file
    list, the folder cache and the expanded folders as they are. *)
Theorem state_kept_and_cleared (env : Env) (net : Network) (r : State) (w : World) :
  (truthy (selectedBranch r) = true ->
   let w' := snd (effect_branchChanged r w) in
   expandedFolders (state w') = ∅
   /\ folderContents (state w') = ∅
   /\ selectedFile (state w') = None)
  /\ (forall folderPath,
        let w' := snd (toggleFolder env net r folderPath w) in
        files (state w') = files (state w)
        /\ selectedFile (state w') = selectedFile (state w)
        /\ (forall p, p ≠ folderPath ->
                      folderContents (state w') !! p
                      = folderContents (state w) !! p)
        /\ (forall p, is_Some (folderContents (state w) !! p) ->
                      is_Some (folderContents (state w') !! p)))
  /\ (forall filePath,
        let w' := snd (handleFileClick env net r filePath w) in
        files (state w') = files (state w)
        /\ folderContents (state w') = folderContents (state w)
        /\ expandedFolders (state w') = expandedFolders (state w)).
Proof.
  split; [|split].
  - intros Hb. unfold effect_branchChanged. rewrite Hb. handler_simpl. done.
  - intros folderPath. unfold toggleFolder, fetchFolderContents. handler_simpl.
    repeat case_match; simpl; simplify_eq.
    all: repeat split; try done.
    all: intros p Hp; simpl in *; rewrite ?lookup_insert_ne by done; try done.
    all: destruct (decide (p = folderPath)) as [->|Hne];
      [rewrite lookup_insert_eq; by eexists
      |by rewrite lookup_insert_ne by done].
  - intros filePath. unfold handleFileClick, fetchFileContent. handler_simpl.
    repeat case_match; simpl; simplify_eq; done.
Qed.

Lemma state_kept_and_cleared_witness :
  let w' := snd (effect_branchChanged (state Sample.editing) Sample.editing) in
  expandedFolders (state w') = ∅
  /\ folderContents (state w') = ∅
  /\ selectedFile (state w') = None.
Proof.
  apply (state_kept_and_cleared Sample.env Sample.net (state Sample.editing)
           Sample.editing).
  vm_compute. reflexivity.
Defined.

(** ** The folder cache *)

(** One folder click, seen from the cache: no cached path is lost; at most
    one request is sent, for the clicked path and only when it is not
    cached; a listing in answer puts the path in the cache. *)
Lemma toggleFolder_step (env : Env) (net : Network) (w : World) (q : JsString) :
  let w1 := snd (toggleFolder env net (state w) q w) in
  (forall p, is_Some (folderContents (state w) !! p) ->
             is_Some (folderContents (state w1) !! p))
  /\ exists new,
       exchanges w1 = new ++ exchanges w
       /\ (new = []
           \/ exists ex,
                new = [ex]
                /\ folderContents (state w) !! q = None
                /\ (forall p, p ≠ q -> contentsFetchOf p ex = false)
                /\ (forall p, p ≠ q -> listingFetchOf p ex = false)
                /\ (listingFetchOf q ex = true ->
                    is_Some (folderContents (state w1) !! q))).
Proof.
  unfold toggleFolder, fetchFolderContents. handler_simpl.
  repeat case_match; simpl; simplify_eq.
  all: split;
    [intros p Hp; simpl;
     try (destruct (decide (p = q)) as [->|Hne];
          [rewrite lookup_insert_eq; by eexists
          |by rewrite lookup_insert_ne by done]);
     done|].
  all: first
    [ by exists []; split; [reflexivity|left]
    | eexists [_]; split; [reflexivity|]; right; eexists; split; [reflexivity|] ].
  all: match goal with
       | H : negb (bool_decide (is_Some ?o)) = true |- _ =>
           apply negb_true_iff, bool_decide_eq_false in H;
           assert (o = None) as Hnone
             by (destruct o; [exfalso; apply H; by eexists|done])
       end.
  all: split; [exact Hnone|].
  all: unfold contentsFetchOf, listingFetchOf; simpl.
  all: repeat split; try (intros p Hp; by rewrite bool_decide_eq_false_2 by done).
  all: try (intros _; rewrite lookup_insert_eq; by eexists).
  all: intros; discriminate.
Qed.

Lemma toggles_cons (env : Env) (net : Network) (q : JsString)
    (paths : list JsString) (w : World) :
  toggles env net (q :: paths) w
  = toggles env net paths (snd (toggleFolder env net (state w) q w)).
Proof. reflexivity. Qed.

(** While a path is cached, folder clicks send no request for it. *)
Lemma toggles_cached (env : Env) (net : Network) (p : JsString)
    (paths : list JsString) (w : World) :
  is_Some (folderContents (state w) !! p) ->
  is_Some (folderContents (state (toggles env net paths w)) !! p)
  /\ exists new,
       exchanges (toggles env net paths w) = new ++ exchanges w
       /\ Forall (fun ex => contentsFetchOf p ex = false) new.
Proof.
  revert w. induction paths as [|q paths IH]; intros w Hp.
  - split; [exact Hp|]. by exists [].
  - rewrite toggles_cons.
    destruct (toggleFolder_step env net w q) as (Hmono & new1 & Hnew1 & Hshape).
    destruct (IH _ (Hmono p Hp)) as (Hp' & new2 & Hnew2 & Hall2).
    split; [exact Hp'|].
    exists (new2 ++ new1). rewrite Hnew2, Hnew1, app_assoc.
    split; [reflexivity|]. apply Forall_app. split; [exact Hall2|].
    destruct Hshape as [->|(ex & -> & Hnone & Hother & _)]; [constructor|].
    repeat constructor. apply Hother. intros ->.
    rewrite Hnone in Hp. by destruct Hp.
Qed.

Lemma listing_is_contents (p : JsString) (ex : Exchange) :
  contentsFetchOf p ex = false -> listingFetchOf p ex = false.
Proof.
  unfold contentsFetchOf, listingFetchOf.
  destruct (request ex); try done. intros ->. by repeat case_match.
Qed.

(** Over any run of folder clicks, at most one request for a path is
    answered by a listing. *)
Lemma toggles_one_listing (env : Env) (net : Network) (p : JsString)
    (paths : list JsString) (w : World) :
  exists new,
    exchanges (toggles env net paths w) = new ++ exchanges w
    /\ (length (List.filter (listingFetchOf p) new) <= 1)%nat.
Proof.
  revert w. induction paths as [|q paths IH]; intros w.
  - exists []. split; [reflexivity|simpl; lia].
  - rewrite toggles_cons.
    destruct (toggleFolder_step env net w q) as (Hmono & new1 & Hnew1 & Hshape).
    destruct Hshape as [->|(ex & -> & Hnone & _ & Hother & Hput)].
    + destruct (IH (snd (toggleFolder env net (state w) q w)))
        as (new2 & Hnew2 & Hcount).
      exists new2. rewrite Hnew2, Hnew1. split; [reflexivity|exact Hcount].
    + destruct (listingFetchOf p ex) eqn:Hex.
      * assert (p = q) as -> by (destruct (decide (p = q)) as [|Hne];
                                 [done|rewrite (Hother p Hne) in Hex; done]).
        destruct (toggles_cached env net q paths _ (Hput Hex))
          as (_ & new2 & Hnew2 & Hnone2).
        exists (new2 ++ [ex]). rewrite Hnew2, Hnew1, <- app_assoc.
        split; [reflexivity|].
        rewrite List.filter_app, length_app. simpl. rewrite Hex. simpl.
        assert (List.filter (listingFetchOf q) new2 = []) as ->; [|simpl; lia].
        clear -Hnone2. induction Hnone2 as [|ex' l Hex' _ IHl]; [done|].
        simpl. by rewrite (listing_is_contents _ _ Hex').
      * destruct (IH (snd (toggleFolder env net (state w) q w)))
          as (new2 & Hnew2 & Hcount).
        exists (new2 ++ [ex]). rewrite Hnew2, Hnew1, <- app_assoc.
        split; [reflexivity|].
        rewrite List.filter_app, length_app. simpl. rewrite Hex. simpl. lia.
Qed.

(** The expanded folders after a click: the clicked path is taken out when
    the render has it expanded, and put in otherwise. *)
Lemma toggleFolder_expanded (env : Env) (net : Network) (r : State)
    (p : JsString) (w : World) :
  expandedFolders (state (snd (toggleFolder env net r p w)))
  = if bool_decide (p ∈ expandedFolders r)
    then expandedFolders r ∖ {[ p ]}
    else {[ p ]} ∪ expandedFolders r.
Proof.
  unfold toggleFolder, fetchFolderContents. handler_simpl.
  repeat case_match; simpl; simplify_eq; done.
Qed.

(** C4, as the specification states it, fails.  With the listing of
    [content] in the cache, two runs of the root load fetch [content] twice
    more, and the cache holds the path throughout.  And two clicks on a
    collapsed folder that are handled by the same render both find it
    collapsed and not cached: both fetch it, and the folder ends expanded. *)
Lemma root_load_refetches_cached_folder :
  (let w := Sample.loaded in
   let w' := run Sample.env Sample.net [RunAutoFetch; RunAutoFetch] w in
   folderContents (state w) !! js "content" = Some [Sample.docsDir; Sample.post]
   /\ folderContents (state w') !! js "content"
      = Some [Sample.docsDir; Sample.post]
   /\ List.filter (contentsFetchOf (js "content")) (take 4 (exchanges w'))
      = [mkExchange
           (GET_contents (Some (js "ghp_token"))
              (contentsOf (state w) (js "content")))
           (Content (Listing [Sample.docsDir; Sample.post]));
         mkExchange
           (GET_contents (Some (js "ghp_token"))
              (contentsOf (state w) (js "content")))
           (Content (Listing [Sample.docsDir; Sample.post]))]
   /\ exchanges w' = take 4 (exchanges w') ++ exchanges w)
  /\ ~ one_fetch_while_cached
  /\ (let r := state Sample.loaded in
      let once := snd (toggleFolder Sample.env Sample.net r (js "content/docs")
                         Sample.loaded) in
      let twice := snd (toggleFolder Sample.env Sample.net r (js "content/docs")
                          once) in
      bool_decide (js "content/docs" ∈ expandedFolders r) = false
      /\ bool_decide (js "content/docs" ∈ expandedFolders (state twice)) = true
      /\ length (exchanges twice) = S (S (length (exchanges Sample.loaded)))).
Proof.
  split; [|split].
  - vm_compute. repeat split.
  - intros Hclaim.
    specialize (Hclaim Sample.env Sample.net [RunAutoFetch; RunAutoFetch]
                  Sample.loaded
                  (take 4 (exchanges (run Sample.env Sample.net
                                        [RunAutoFetch; RunAutoFetch]
                                        Sample.loaded)))
                  (js "content")).
    assert (2 <= 1)%nat as Habsurd; [|lia].
    apply Hclaim.
    + intros k. destruct k as [|[|[|k]]]; vm_compute; by eexists.
    + vm_compute. reflexivity.
  - vm_compute. repeat split.
Qed.

(** C4, amended: the memoization is that of the folder clicks.  A click on a
    folder whose listing is in the render's cache sends no request.  A
    click on a collapsed folder that is not cached expands it and sends
    exactly one request, for the contents of that path, and a listing in
    answer is put in the cache under the path; a click on an expanded folder
    collapses it and sends nothing.  Over any run of folder clicks, each
    handled by the render of the state the previous one left, a path that
    is cached stays cached and is not fetched, so at most one request for a
    path is answered by a listing; and two such clicks on the same folder
    leave the set of expanded folders as it was. *)
Theorem toggleFolder_memoizes (env : Env) (net : Network) (w : World)
    (p : JsString) :
  (forall r, is_Some (folderContents r !! p) ->
             exchanges (snd (toggleFolder env net r p w)) = exchanges w)
  /\ (forall r,
        p ∉ expandedFolders r ->
        folderContents r !! p = None ->
        let w' := snd (toggleFolder env net r p w) in
        let answer :=
          net_getContent net (exchanges w) (createOctokitInstance env)
            (contentsOf r p) in
        exchanges w'
        = mkExchange (GET_contents (createOctokitInstance env) (contentsOf r p))
            (match answer with Return d => Content d | Throw e => Failed e end)
          :: exchanges w
        /\ expandedFolders (state w') = {[ p ]} ∪ expandedFolders r
        /\ forall l, answer = Return (Listing l) ->
                     folderContents (state w')
                     = <[p := l]> (folderContents (state w)))
  /\ (forall r,
        p ∈ expandedFolders r ->
        let w' := snd (toggleFolder env net r p w) in
        exchanges w' = exchanges w
        /\ expandedFolders (state w') = expandedFolders r ∖ {[ p ]})
  /\ (forall paths,
        is_Some (folderContents (state w) !! p) ->
        is_Some (folderContents (state (toggles env net paths w)) !! p)
        /\ exists new,
             exchanges (toggles env net paths w) = new ++ exchanges w
             /\ Forall (fun ex => contentsFetchOf p ex = false) new)
  /\ (forall paths,
        exists new,
          exchanges (toggles env net paths w) = new ++ exchanges w
          /\ (length (List.filter (listingFetchOf p) new) <= 1)%nat)
  /\ expandedFolders (state (toggles env net [p; p] w))
     = expandedFolders (state w).
Proof.
  split; [|split; [|split; [|split; [|split]]]].
  - intros r Hp. unfold toggleFolder. handler_simpl.
    rewrite (bool_decide_eq_true_2 _ Hp). simpl. by case_match.
  - intros r Hout Hnone. unfold toggleFolder, fetchFolderContents, contentsOf.
    handler_simpl.
    rewrite (bool_decide_eq_false_2 _ Hout).
    rewrite (bool_decide_eq_false_2 (is_Some _))
      by (rewrite Hnone; by intros [? ?]).
    simpl. destruct (net_getContent _ _ _ _) as [[l|fd]|e]; simpl.
    all: repeat split; try done.
    all: by intros ? [= <-].
  - intros r Hin. unfold toggleFolder. handler_simpl.
    by rewrite (bool_decide_eq_true_2 _ Hin).
  - intros paths. apply toggles_cached.
  - intros paths. apply toggles_one_listing.
  - unfold toggles. simpl.
    rewrite !toggleFolder_expanded.
    apply set_eq. intros x.
    destruct (decide (p ∈ expandedFolders (state w))) as [Hin|Hout].
    + rewrite (bool_decide_eq_true_2 _ Hin).
      rewrite bool_decide_eq_false_2
        by (rewrite elem_of_difference, elem_of_singleton; tauto).
      rewrite elem_of_union, elem_of_difference, elem_of_singleton.
      destruct (decide (x = p)) as [->|Hne]; tauto.
    + rewrite (bool_decide_eq_false_2 _ Hout).
      rewrite bool_decide_eq_true_2
        by (rewrite elem_of_union, elem_of_singleton; tauto).
      rewrite elem_of_difference, elem_of_union, elem_of_singleton.
      destruct (decide (x = p)) as [->|Hne]; tauto.
Qed.

Lemma toggleFolder_memoizes_witness :
  exchanges (snd (toggleFolder Sample.env Sample.net (state Sample.loaded)
                    (js "content") Sample.loaded))
  = exchanges Sample.loaded
  /\ exchanges (snd (toggleFolder Sample.env Sample.net (state Sample.loaded)
                       (js "content/docs") Sample.loaded))
     = mkExchange
         (GET_contents (Some (js "ghp_token"))
            (contentsOf (state Sample.loaded) (js "content/docs")))
         (Content (Listing []))
       :: exchanges Sample.loaded
  /\ exists new,
       exchanges (toggles Sample.env Sample.net
                    [js "content"; js "content/docs"; js "content"]
                    Sample.loaded)
       = new ++ exchanges Sample.loaded
       /\ Forall (fun ex => contentsFetchOf (js "content") ex = false) new.
Proof.
  destruct (toggleFolder_memoizes Sample.env Sample.net Sample.loaded
              (js "content")) as (Hone & _ & _ & Hrun & _).
  destruct (toggleFolder_memoizes Sample.env Sample.net Sample.loaded
              (js "content/docs")) as (_ & Hfetch & _).
  assert (is_Some (folderContents (state Sample.loaded) !! js "content"))
    as Hcached by (vm_compute; by eexists).
  split; [|split].
  - apply Hone. exact Hcached.
  - refine (proj1 (Hfetch (state Sample.loaded) _ _)).
    + intros Hin. apply (bool_decide_eq_true_2 _) in Hin.
      vm_compute in Hin. discriminate Hin.
    + vm_compute. reflexivity.
  - apply (Hrun [js "content"; js "content/docs"; js "content"] Hcached).
Defined.

(** * Further properties of the component *)

(** ** Spinners and edit mode *)

Lemma idle_step (env : Env) (net : Network) (ev : Event) (w : World) :
  idle w -> idle (step env net ev w).
Proof.
  intros (Hl & Hs & Hb). unfold step, idle.
  destruct ev; unfold_handlers; handler_simpl.
  all: repeat case_match; simpl; simplify_eq; done.
Qed.

(** X1: whatever happens in a session, once an event has been handled no
    spinner is left on: [loading], [saveLoading] and [branchLoading] are all
    false again, also after failures. *)
Theorem session_ends_idle (env : Env) (net : Network) (evs : list Event) :
  let w := run env net evs (initialWorld env) in
  loading (state w) = false
  /\ saveLoading (state w) = false
  /\ branchLoading (state w) = false.
Proof.
  apply (session_invariant env net idle); [done|].
  apply idle_step.
Qed.

Lemma editingSelected_step (env : Env) (net : Network) (ev : Event) (w : World) :
  editingSelected w -> editingSelected (step env net ev w).
Proof.
  intros (Hsel & Hmdx). unfold step, editingSelected.
  destruct ev; unfold_handlers; handler_simpl.
  all: repeat case_match; simpl in *; simplify_eq.
  all: split; intros; simplify_eq; try done; try by eauto.
  all: match goal with
       | Hs : _ -> is_Some None, He : _ = true |- _ =>
           by destruct (Hs He)
       | Hs : selectedFile _ = Some _ |- _ => rewrite Hs; by eexists
       end.
Qed.

(** X2: in every session edit mode is on only while a file is selected, and
    the MDX editor mode is on only in edit mode. *)
Theorem session_edits_selected_file (env : Env) (net : Network) (evs : list Event) :
  let w := run env net evs (initialWorld env) in
  (isEditing (state w) = true -> is_Some (selectedFile (state w)))
  /\ (isMdxEditorMode (state w) = true -> isEditing (state w) = true).
Proof.
  apply (session_invariant env net editingSelected); [by split|].
  apply editingSelected_step.
Qed.

Lemma session_edits_selected_file_witness :
  let w := run Sample.env Sample.net
             [RunInitialLoad; RunBranchChanged; RunAutoFetch;
              ClickTreeItem Sample.post; ClickEdit false;
              ChangeSource (js "Hello!")] (initialWorld Sample.env) in
  is_Some (selectedFile (state w)).
Proof.
  intros w.
  refine (proj1 (session_edits_selected_file Sample.env Sample.net
           [RunInitialLoad; RunBranchChanged; RunAutoFetch;
            ClickTreeItem Sample.post; ClickEdit false;
            ChangeSource (js "Hello!")]) _).
  vm_compute. reflexivity.
Defined.

(** ** Commits *)

(** The commits a handler sends: with the token, and for the path and the
    hash of the file that is selected when the event arrives. *)
Lemma handler_commits (env : Env) (net : Network) (ev : Event) (w : World) :
  exists new,
    exchanges (step env net ev w) = new ++ exchanges w
    /\ forall later earlier auth p rp,
         new = later ++ mkExchange (PUT_contents auth p) rp :: earlier ->
         earlier = []
         /\ auth = Some (token env)
         /\ token env ≠ []
         /\ exists selected,
              selectedFile (state w) = Some selected
              /\ CreateOrUpdateFileContents.path p = FileContent.path selected
              /\ CreateOrUpdateFileContents.sha p = FileContent.sha selected.
Proof.
  unfold step.
  destruct ev; unfold_handlers; handler_simpl.
  all: repeat case_match; simpl; simplify_eq.
  all: first [ exists []; split; [reflexivity|]
             | eexists [_]; split; [reflexivity|]
             | eexists [_; _]; split; [reflexivity|] ].
  all: intros later earlier auth p rp Heq.
  all: destruct later as [|? [|? [|? ?]]]; simpl in Heq; simplify_eq.
  all: unfold createOctokitInstance;
    match goal with
    | H : truthy (token _) = true |- _ =>
        rewrite H; apply truthy_true in H
    end.
  all: repeat split; try done; by eexists.
Qed.

Lemma commitsAuthorised_step (env : Env) (net : Network) (ev : Event) (w : World) :
  snapshotFetched env w /\ commitsAuthorised env (exchanges w) ->
  snapshotFetched env (step env net ev w)
  /\ commitsAuthorised env (exchanges (step env net ev w)).
Proof.
  intros [Hsnap Hlog]. split; [by apply snapshotFetched_step|].
  destruct (handler_commits env net ev w) as (new & -> & Hnew).
  intros later earlier auth p rp Heq.
  apply app_eq_app in Heq as [mid [[-> Hmid]|[-> Hmid]]].
  - destruct mid as [|ex mid]; simpl in Hmid.
    + apply (Hlog [] earlier auth p rp). by rewrite Hmid.
    + injection Hmid as <- ->.
      destruct (Hnew later mid auth p rp eq_refl)
        as (-> & -> & Htok & selected & Hsel & Hpath & Hsha).
      split; [done|]. split; [done|].
      destruct (Hsnap selected Hsel) as (a & q & fd & c & Hin & _ & ->).
      exists a, q, fd. simpl. by rewrite Hpath, Hsha.
  - destruct (Hlog mid earlier auth p rp Hmid)
      as (Hauth & Htok & a & q & fd & Hin & Hpath & Hsha).
    split; [done|]. split; [done|]. by exists a, q, fd.
Qed.

(** X3: in every session, every commit in the log was sent with the
    configured token, which is not empty, and names the path and the content
    hash of a file that the API had delivered before: nothing is written
    anonymously or blindly. *)
Theorem session_commits_authorised (env : Env) (net : Network)
    (evs : list Event) (later earlier : list Exchange) (auth : option JsString)
    (p : CreateOrUpdateFileContents.params) (rp : Reply) :
  exchanges (run env net evs (initialWorld env))
    = later ++ mkExchange (PUT_contents auth p) rp :: earlier ->
  auth = Some (token env)
  /\ token env ≠ []
  /\ exists auth' p' fileData,
       mkExchange (GET_contents auth' p') (Content (Single fileData))
         ∈ earlier
       /\ GitHubFileResponse.path fileData = CreateOrUpdateFileContents.path p
       /\ GitHubFileResponse.sha fileData = CreateOrUpdateFileContents.sha p.
Proof.
  revert later earlier auth p rp.
  apply (session_invariant env net
           (fun w => snapshotFetched env w /\ commitsAuthorised env (exchanges w))).
  - split; [by intros s Hs|]. intros later ? ? ? ? Heq. by destruct later.
  - intros ev w. apply commitsAuthorised_step.
Qed.

Lemma session_commits_authorised_witness :
  Some (js "ghp_token") = Some (token Sample.env).
Proof.
  refine (proj1 (session_commits_authorised Sample.env Sample.net
            [RunInitialLoad; RunBranchChanged; RunAutoFetch;
             ClickTreeItem Sample.post; ClickEdit false;
             ChangeSource (js "Hello!"); ClickSave] [_] _ _ _ _ _)).
  vm_compute. reflexivity.
Defined.

(** ** Texts that can be committed *)

Lemma b64index_bound (c i : N) : Platform.b64index c = Some i -> i < 64.
Proof.
  unfold Platform.b64index.
  repeat match goal with
    | |- context [?a <=? ?b] => destruct (N.leb_spec a b)
    | |- context [?a =? ?b] => destruct (N.eqb_spec a b)
    end; simpl; intros [= <-]; lia.
Qed.

Lemma sextets_bound (s l : list N) :
  Platform.sextets s = Some l -> Forall (fun i => i < 64) l.
Proof.
  revert l. induction s as [|c s IH]; simpl; intros l.
  - intros [= <-]. constructor.
  - destruct (Platform.b64index c) as [i|] eqn:Hc; [|done].
    destruct (Platform.sextets s) as [l'|]; [|done].
    intros [= <-]. constructor; [by eapply b64index_bound|by apply IH].
Qed.

Lemma decodeSextets_bytes (l : list N) :
  Forall (fun i => i < 64) l ->
  Platform.isLatin1 (Platform.decodeSextets l) = true.
Proof.
  assert (forall n (l : list N), (length l <= n)%nat ->
            Forall (fun i => i < 64) l ->
            Platform.isLatin1 (Platform.decodeSextets l) = true) as Hgen;
    [|by eapply Hgen].
  clear l. induction n as [|n IH]; intros l Hlen Hall.
  { destruct l; [done|simpl in Hlen; lia]. }
  destruct l as [|p [|q [|r [|s rest]]]]; try done.
  - inversion_clear Hall as [|? ? Hp Hall']. inversion_clear Hall' as [|? ? Hq _].
    simpl. rewrite andb_true_r. apply N.leb_le. divmod_lia.
  - inversion_clear Hall as [|? ? Hp Hall']. inversion_clear Hall' as [|? ? Hq Hall''].
    inversion_clear Hall'' as [|? ? Hr _].
    simpl. rewrite andb_true_r. apply andb_true_intro.
    split; apply N.leb_le; divmod_lia.
  - inversion_clear Hall as [|? ? Hp Hall']. inversion_clear Hall' as [|? ? Hq Hall''].
    inversion_clear Hall'' as [|? ? Hr Hall3]. inversion_clear Hall3 as [|? ? Hs Hrest].
    change (Platform.decodeSextets (p :: q :: r :: s :: rest))
      with ((p * 4 + q / 16) :: (q mod 16 * 16 + r / 4) :: (r mod 4 * 64 + s)
            :: Platform.decodeSextets rest).
    unfold Platform.isLatin1 in *. simpl.
    rewrite (IH rest) by (simpl in Hlen; lia || done).
    rewrite andb_true_r. repeat (apply andb_true_intro; split).
    all: apply N.leb_le; divmod_lia.
Qed.

(** What [atob] returns has byte-sized code units. *)
Lemma atob_bytes (message : JsString) (s text : JsString) :
  Platform.atob message s = Return text -> Platform.isLatin1 text = true.
Proof.
  unfold Platform.atob. case_match; [done|].
  destruct (Platform.sextets _) as [l|] eqn:Hl; [|done].
  intros [= <-]. by eapply decodeSextets_bytes, sextets_bound.
Qed.

Lemma decodeContent_bytes (env : Env) (fileData : GitHubFileResponse.t)
    (text : JsString) :
  decodeContent env fileData = Return text ->
  FileContent.encoding (fileContentOf fileData text) = js "base64" ->
  Platform.isLatin1 text = true.
Proof.
  unfold decodeContent, fileContentOf. simpl.
  destruct (GitHubFileResponse.content fileData) as [c|]; [|by intros [= <-]].
  destruct (truthy c); [|by intros [= <-]].
  case_bool_decide as Henc.
  - intros Hdec _. by eapply atob_bytes.
  - intros _ Hbase. exfalso. apply Henc.
    destruct (GitHubFileResponse.encoding fileData) as [e|]; simpl in Hbase.
    + destruct e; simpl in Hbase; [discriminate Hbase|by rewrite Hbase].
    + discriminate Hbase.
Qed.

(** X4: in every session the displayed text of a file that came
    base64-encoded consists of byte-sized code units, so opening it in the
    text editor and saving it at once always reaches the API: with a token
    configured, the PUT is sent with the base64 of that text, the default
    message [Update <name>] and the file's hash. *)
Theorem fetched_text_can_be_saved (env : Env) (net : Network) (evs : list Event)
    (selected : FileContent.t) :
  let w := run env net evs (initialWorld env) in
  selectedFile (state w) = Some selected ->
  FileContent.encoding selected = js "base64" ->
  token env ≠ [] ->
  Platform.isLatin1 (FileContent.content selected) = true
  /\ exists later rp,
       exchanges (run env net [ClickEdit false; ClickSave] w)
       = later
         ++ mkExchange
              (PUT_contents (Some (token env))
                 {| CreateOrUpdateFileContents.owner := owner (state w);
                    CreateOrUpdateFileContents.repo := repo (state w);
                    CreateOrUpdateFileContents.path := FileContent.path selected;
                    CreateOrUpdateFileContents.message :=
                      js "Update " ++ FileContent.name selected;
                    CreateOrUpdateFileContents.content :=
                      Platform.encodeBytes (FileContent.content selected);
                    CreateOrUpdateFileContents.sha := FileContent.sha selected;
                    CreateOrUpdateFileContents.branch := selectedBranch (state w) |})
              rp
            :: exchanges w.
Proof.
  intros w Hsel Hbase Htok.
  assert (Platform.isLatin1 (FileContent.content selected) = true) as Hbytes.
  { assert (snapshotFetched env w) as Hsnap.
    { apply session_invariant; [by intros s Hs|]. apply snapshotFetched_step. }
    destruct (Hsnap selected Hsel) as (a & q & fd & c & _ & Hdec & ->).
    by eapply decodeContent_bytes. }
  split; [exact Hbytes|].
  set (w1 := step env net (ClickEdit false) w).
  change (run env net [ClickEdit false; ClickSave] w)
    with (snd (saveFileContent env net (state w1) w1)).
  assert (w1 = mkWorld
                 (with_commitMessage (js "Update " ++ FileContent.name selected)
                    (with_isMdxEditorMode false
                       (with_isEditing true
                          (with_editedContent (FileContent.content selected)
                             (state w)))))
                 (mdxEditorRef w) (editorCalls w) (console w) (exchanges w))
    as Hw1.
  { subst w1. unfold step. simpl. unfold startEditing. by rewrite Hsel. }
  assert (Platform.trim (commitMessage (state w1)) ≠ []) as Hmsg.
  { rewrite Hw1. intros Hnil%trim_nil. discriminate Hnil. }
  assert (Platform.btoa (btoaErrorMessage env) (contentToSave (state w1) (mdxEditorRef w1))
          = Return (Platform.encodeBytes (FileContent.content selected)))
    as Henc.
  { rewrite Hw1. unfold contentToSave. simpl.
    unfold Platform.btoa. by rewrite Hbytes. }
  assert (selectedFile (state w1) = Some selected) as Hsel1
    by (by rewrite Hw1).
  destruct (saveFileContent_put env net (state w1) w1 selected _
              Hsel1 Htok Hmsg Henc) as (later & rp & Hlog & _).
  exists later, rp. rewrite Hlog. unfold commitOf.
  unfold createOctokitInstance. apply truthy_true in Htok. rewrite Htok.
  by rewrite Hw1.
Qed.

Lemma fetched_text_can_be_saved_witness :
  let w := run Sample.env Sample.net
             [RunInitialLoad; RunBranchChanged; RunAutoFetch;
              ClickTreeItem Sample.post] (initialWorld Sample.env) in
  Platform.isLatin1 (js "Hello") = true.
Proof.
  intros w.
  refine (proj1 (fetched_text_can_be_saved Sample.env Sample.net
            [RunInitialLoad; RunBranchChanged; RunAutoFetch;
             ClickTreeItem Sample.post]
            (fileContentOf Sample.postResponse (js "Hello")) _ _ _)).
  - vm_compute. reflexivity.
  - vm_compute. reflexivity.
  - vm_compute. discriminate.
Defined.

(** ** Branches *)

(** X5: when the branch list arrives it replaces [branches] and the banner
    stays empty.  The selected branch is kept if the repository has it;
    otherwise [main] or [master] is selected if the repository has one of
    them, else the first branch of the list; a repository without branches,
    or whose first branch has an empty name, leaves the selection as it
    was. *)
Theorem fetchBranches_selects (env : Env) (net : Network) (r : State) (w : World)
    (data : list Branch.t) :
  net_listBranches net (exchanges w) (createOctokitInstance env)
    {| ListBranches.owner := owner r; ListBranches.repo := repo r |}
  = Return data ->
  let names := map Branch.name data in
  let w' := snd (fetchBranches env net r w) in
  branches (state w') = data
  /\ error (state w') = None
  /\ branchLoading (state w') = false
  /\ (selectedBranch r ∈ names ->
      selectedBranch (state w') = selectedBranch (state w))
  /\ (selectedBranch r ∉ names ->
      js "main" ∈ names \/ js "master" ∈ names ->
      selectedBranch (state w') ∈ names
      /\ (selectedBranch (state w') = js "main"
          \/ selectedBranch (state w') = js "master"))
  /\ (selectedBranch r ∉ names ->
      js "main" ∉ names -> js "master" ∉ names ->
      match names with
      | first :: _ =>
          (first ≠ [] -> selectedBranch (state w') = first)
          /\ (first = [] ->
              selectedBranch (state w') = selectedBranch (state w))
      | [] => selectedBranch (state w') = selectedBranch (state w)
      end).
Proof.
  intros Hnet names w'. subst w'. unfold fetchBranches. handler_simpl.
  rewrite Hnet. simpl. fold names.
  destruct (decide (selectedBranch r ∈ names)) as [Hin|Hout].
  { rewrite (bool_decide_eq_true_2 _ Hin). simpl. repeat split; done. }
  rewrite (bool_decide_eq_false_2 _ Hout). simpl.
  destruct (List.find _ names) as [b|] eqn:Hfind.
  - apply find_some in Hfind as [Hb Hmain]. apply list_elem_of_In in Hb.
    apply orb_prop in Hmain.
    assert (b = js "main" \/ b = js "master") as Hb'
      by (destruct Hmain as [H|H]; apply bool_decide_eq_true_1 in H; auto).
    assert (truthy b = true) as -> by (destruct Hb' as [->| ->]; reflexivity).
    simpl. repeat split; try done.
    intros _ Hno1 Hno2. destruct Hb' as [->| ->]; contradiction.
  - assert ((js "main" ∉ names) /\ (js "master" ∉ names)) as [Hno1 Hno2].
    { split; intros Hin%list_elem_of_In.
      - pose proof (find_none _ _ Hfind _ Hin) as Hf. cbv beta in Hf.
        apply orb_false_elim in Hf as [Hf _].
        by apply bool_decide_eq_false_1 in Hf.
      - pose proof (find_none _ _ Hfind _ Hin) as Hf. cbv beta in Hf.
        apply orb_false_elim in Hf as [_ Hf].
        by apply bool_decide_eq_false_1 in Hf. }
    destruct names as [|first rest]; [|destruct first as [|c first]]; simpl.
    all: repeat split; try done.
    all: match goal with
         | H : _ ∈ _ \/ _ ∈ _ |- _ => destruct H; contradiction
         end.
Qed.

Lemma fetchBranches_selects_witness :
  let w := initialWorld Sample.env in
  branches (state (snd (fetchBranches Sample.env Sample.net (state w) w)))
  = [ {| Branch.name := js "main"; Branch.commit_sha := js "c1";
         Branch.protected := true |} ].
Proof.
  intros w.
  refine (proj1 (fetchBranches_selects Sample.env Sample.net (state w) w _ _)).
  reflexivity.
Defined.

(** ** Selecting a file *)

(** Decoding throws nothing but the exception of [atob]. *)
Lemma decodeContent_throws (env : Env) (fileData : GitHubFileResponse.t)
    (e : Thrown) :
  decodeContent env fileData = Throw e ->
  e = Platform.invalidCharacterError (atobErrorMessage env).
Proof.
  unfold decodeContent, Platform.atob.
  repeat case_match; intros; by simplify_eq.
Qed.

(** X6: a click on a file leaves edit mode and reads the file.  A file in
    answer becomes the displayed file and the banner is emptied; a directory
    listing or a directory in answer changes nothing else; content that is
    not valid base64 leaves the displayed file as it was and puts the
    message that the platform gave the exception of [atob] in the banner.
    The spinner is off in every case. *)
Theorem handleFileClick_outcomes (env : Env) (net : Network) (r : State)
    (w : World) (filePath : JsString) (data : ContentData) :
  net_getContent net (exchanges w) (createOctokitInstance env)
    (contentsOf r filePath) = Return data ->
  let w' := snd (handleFileClick env net r filePath w) in
  isEditing (state w') = false
  /\ isMdxEditorMode (state w') = false
  /\ loading (state w') = false
  /\ match data with
     | Single fileData =>
         match GitHubFileResponse.type fileData, decodeContent env fileData with
         | file, Return text =>
             selectedFile (state w') = Some (fileContentOf fileData text)
             /\ error (state w') = None
         | file, Throw _ =>
             selectedFile (state w') = selectedFile (state w)
             /\ error (state w') = Some (atobErrorMessage env)
         | dir, _ =>
             selectedFile (state w') = selectedFile (state w)
             /\ error (state w') = None
         end
     | Listing _ =>
         selectedFile (state w') = selectedFile (state w)
         /\ error (state w') = None
     end.
Proof.
  intros Hnet w'. subst w'.
  unfold handleFileClick, fetchFileContent, contentsOf in *. handler_simpl.
  rewrite Hnet. simpl.
  destruct data as [l|fd]; simpl; [done|].
  destruct (GitHubFileResponse.type fd); simpl; [|done].
  destruct (decodeContent env fd) as [text|e] eqn:Hdec; simpl; [done|].
  by rewrite (decodeContent_throws _ _ _ Hdec).
Qed.

Lemma handleFileClick_outcomes_witness :
  let w := Sample.loaded in
  selectedFile
    (state (snd (handleFileClick Sample.env Sample.net (state w)
                   (js "content/post.mdx") w)))
  = Some (fileContentOf Sample.postResponse (js "Hello")).
Proof.
  intros w.
  refine (proj1 (proj2 (proj2 (proj2
            (handleFileClick_outcomes Sample.env Sample.net (state w) w
               (js "content/post.mdx") (Single Sample.postResponse) _))))).
  reflexivity.
Defined.

(** ** The rendered tree *)

(** The folder cache after a click on a folder. *)
Lemma toggleFolder_cache (env : Env) (net : Network) (r : State)
    (p : JsString) (w : World) :
  folderContents (state (snd (toggleFolder env net r p w)))
  = if bool_decide (p ∈ expandedFolders r)
       || bool_decide (is_Some (folderContents r !! p))
    then folderContents (state w)
    else match net_getContent net (exchanges w) (createOctokitInstance env)
                 (contentsOf r p) with
         | Return (Listing l) => <[p := l]> (folderContents (state w))
         | _ => folderContents (state w)
         end.
Proof.
  unfold toggleFolder, fetchFolderContents, contentsOf. handler_simpl.
  destruct (bool_decide (p ∈ expandedFolders r)); simpl; [done|].
  destruct (bool_decide (is_Some (folderContents r !! p))); simpl; [done|].
  destruct (net_getContent _ _ _ _) as [[l|fd]|e]; done.
Qed.

(** X7: what a click on a directory does to the tree.  A collapsed directory
    is expanded and shows its cached listing without a request, or else the
    listing that its one request is answered with, or nothing when that
    request fails; an expanded directory is collapsed and shows nothing. *)
Theorem toggleFolder_renders (env : Env) (net : Network) (w : World)
    (f : RepoFile.t) :
  RepoFile.type f = dir ->
  let r := state w in
  let w' := snd (toggleFolder env net r (RepoFile.path f) w) in
  (RepoFile.path f ∈ expandedFolders r -> renderedChildren (state w') f = [])
  /\ (RepoFile.path f ∉ expandedFolders r ->
      forall l, folderContents r !! RepoFile.path f = Some l ->
                renderedChildren (state w') f = l
                /\ exchanges w' = exchanges w)
  /\ (RepoFile.path f ∉ expandedFolders r ->
      folderContents r !! RepoFile.path f = None ->
      match net_getContent net (exchanges w) (createOctokitInstance env)
              (contentsOf r (RepoFile.path f)) with
      | Return (Listing l) => renderedChildren (state w') f = l
      | _ => renderedChildren (state w') f = []
      end).
Proof.
  intros Hdir r w'. subst r w'. unfold renderedChildren.
  rewrite Hdir, toggleFolder_expanded, toggleFolder_cache.
  rewrite (bool_decide_eq_true_2 (dir = dir)) by done.
  split; [|split].
  - intros Hin. rewrite !(bool_decide_eq_true_2 _ Hin). simpl.
    rewrite bool_decide_eq_false_2; [done|].
    rewrite elem_of_difference, elem_of_singleton. tauto.
  - intros Hout l Hl. rewrite !(bool_decide_eq_false_2 _ Hout).
    rewrite (bool_decide_eq_true_2 (is_Some _)) by (rewrite Hl; by eexists).
    rewrite bool_decide_eq_true_2
      by (rewrite elem_of_union, elem_of_singleton; tauto).
    simpl. rewrite Hl. simpl. split.
    + case_bool_decide; simpl; congruence.
    + unfold toggleFolder. handler_simpl.
      rewrite (bool_decide_eq_false_2 _ Hout).
      rewrite (bool_decide_eq_true_2 (is_Some _)) by (rewrite Hl; by eexists).
      done.
  - intros Hout Hnone. rewrite !(bool_decide_eq_false_2 _ Hout).
    rewrite (bool_decide_eq_false_2 (is_Some _))
      by (rewrite Hnone; by intros [? ?]).
    rewrite bool_decide_eq_true_2
      by (rewrite elem_of_union, elem_of_singleton; tauto).
    simpl.
    destruct (net_getContent _ _ _ _) as [[l|fd]|e]; simpl.
    + rewrite lookup_insert_eq. simpl. case_bool_decide; simpl; congruence.
    + by rewrite Hnone.
    + by rewrite Hnone.
Qed.

Lemma toggleFolder_renders_witness :
  renderedChildren
    (state (snd (toggleFolder Sample.env Sample.net (state Sample.loaded)
                   (js "content") Sample.loaded)))
    Sample.contentDir
  = [].
Proof.
  refine (proj1 (toggleFolder_renders Sample.env Sample.net Sample.loaded
                   Sample.contentDir _) _).
  - reflexivity.
  - vm_compute. reflexivity.
Defined.

(** ** The page load *)

(** X8: the root load after the listing has arrived with a [content]
    directory in it.  The one further request reads that directory; a
    listing in answer is cached under [content] and is what the tree shows
    beneath the folder; when the request fails the cache and the banner stay
    as they are, the failure goes to the console, and the folder shows only
    what the cache already held for it. *)
Theorem root_load_fills_tree (env : Env) (net : Network) (r : State) (w : World)
    (repoFiles : list RepoFile.t) (f : RepoFile.t) :
  net_getContent net (exchanges w) (createOctokitInstance env) (contentsOf r [])
    = Return (Listing repoFiles) ->
  f ∈ repoFiles ->
  RepoFile.name f = js "content" ->
  RepoFile.path f = js "content" ->
  RepoFile.type f = dir ->
  let root :=
    mkExchange (GET_contents (createOctokitInstance env) (contentsOf r []))
      (Content (Listing repoFiles)) in
  let w' := snd (fetchRepoContents env net r [] w) in
  loading (state w') = false
  /\ error (state w') = None
  /\ match net_getContent net (root :: exchanges w)
             (createOctokitInstance env) (contentsOf r (js "content")) with
     | Return (Listing l) =>
         folderContents (state w')
         = <[js "content" := l]> (folderContents (state w))
         /\ renderedChildren (state w') f = l
         /\ console w' = console w
     | Return (Single _) =>
         folderContents (state w') = folderContents (state w)
         /\ renderedChildren (state w') f
            = default [] (folderContents (state w) !! js "content")
         /\ console w' = console w
     | Throw e =>
         folderContents (state w') = folderContents (state w)
         /\ renderedChildren (state w') f
            = default [] (folderContents (state w) !! js "content")
         /\ console w'
            = (js "Failed to fetch contents for content:", e) :: console w
     end.
Proof.
  intros Hnet Hin Hname Hpath Hdir root w'. subst root w'.
  unfold fetchRepoContents, fetchFolderContents, contentsOf in *.
  handler_simpl. rewrite Hnet. simpl.
  destruct (List.find _ repoFiles) as [contentFolder|] eqn:Hfind.
  2:{ apply list_elem_of_In in Hin.
      pose proof (find_none _ _ Hfind f Hin) as Hp. cbv beta in Hp.
      rewrite Hname, Hdir in Hp.
      by rewrite !bool_decide_eq_true_2 in Hp by done. }
  simpl. unfold renderedChildren. rewrite Hpath, Hdir.
  destruct (net_getContent net (_ :: _) _ _) as [[l|fd]|e]; simpl.
  all: rewrite (bool_decide_eq_true_2 (_ ∈ _))
    by (apply elem_of_singleton; reflexivity).
  all: rewrite ?lookup_insert_eq; simpl.
  all: repeat split; try done.
  all: case_bool_decide; simpl; congruence.
Qed.

Lemma root_load_fills_tree_witness :
  let w := initialWorld Sample.env in
  renderedChildren
    (state (snd (fetchRepoContents Sample.env Sample.net (state w) [] w)))
    Sample.contentDir
  = [Sample.docsDir; Sample.post].
Proof.
  intros w.
  refine (proj1 (proj2 (proj2 (proj2
    (root_load_fills_tree Sample.env Sample.net (state w) w
       [Sample.readme; Sample.contentDir] Sample.contentDir _ _ _ _ _))))).
  - reflexivity.
  - apply list_elem_of_further, list_elem_of_here.
  - reflexivity.
  - reflexivity.
  - reflexivity.
Defined.

Lemma orElse_truthy (o : option JsString) (d : JsString) :
  truthy d = true -> truthy (orElse o d) = true.
Proof. intros Hd. unfold orElse. destruct o as [[|c s]|]; done. Qed.

(** One run of [fetchBranches] sends one request, for the branches of the
    render's repository. *)
Lemma fetchBranches_log (env : Env) (net : Network) (r : State) (w : World) :
  exists rp,
    exchanges (snd (fetchBranches env net r w))
    = mkExchange
        (GET_branches (createOctokitInstance env)
           {| ListBranches.owner := owner r; ListBranches.repo := repo r |}) rp
      :: exchanges w.
Proof.
  unfold fetchBranches. handler_simpl.
  destruct (net_listBranches _ _ _ _) as [data|e]; simpl.
  - repeat case_match; simplify_eq; simpl; eexists; reflexivity.
  - eexists; reflexivity.
Qed.

Lemma effect_branchChanged_log (r : State) (w : World) :
  exchanges (snd (effect_branchChanged r w)) = exchanges w.
Proof. unfold effect_branchChanged. handler_simpl. by case_match. Qed.

(** X9: the guard of the initial load never blocks it.  In every session
    the [owner] and [repo] cells are non-empty (an unset or empty variable
    falls back to the built-in default), so each run of the effect's body
    sends exactly one request, for the branches of the configured
    repository.  The component declares the effect twice: the effects of the
    first render send that request twice, and nothing else, the auto-fetch
    seeing the empty branch list of the first render. *)
Theorem initial_load_always_fetches (env : Env) (net : Network)
    (evs : list Event) :
  let w := run env net evs (initialWorld env) in
  let branchesRequest :=
    GET_branches (createOctokitInstance env)
      {| ListBranches.owner := configuredOwner env;
         ListBranches.repo := configuredRepo env |} in
  owner (state w) ≠ []
  /\ repo (state w) ≠ []
  /\ (exists rp,
        exchanges (step env net RunInitialLoad w)
        = mkExchange branchesRequest rp :: exchanges w)
  /\ (exists second first,
        exchanges (mounted env net)
        = [mkExchange branchesRequest second;
           mkExchange branchesRequest first]).
Proof.
  intros w rq.
  assert (configurationKept env w) as (Ho & Hr & _).
  { apply session_invariant; [repeat split; constructor|].
    apply configurationKept_step. }
  assert (truthy (configuredOwner env) = true) as Howner
    by (by apply orElse_truthy).
  assert (truthy (configuredRepo env) = true) as Hrepo
    by (by apply orElse_truthy).
  split; [rewrite Ho; by apply truthy_true|].
  split; [rewrite Hr; by apply truthy_true|].
  split.
  - unfold step. simpl. unfold effect_initialLoad.
    rewrite Ho, Hr, Howner, Hrepo. simpl.
    destruct (fetchBranches_log env net (state w) w) as [rp Hlog].
    exists rp. rewrite Hlog. subst rq. by rewrite Ho, Hr.
  - unfold mounted, afterRender, effectsOfMount. simpl.
    unfold effect_initialLoad, effect_autoFetch. simpl.
    rewrite Howner, Hrepo. simpl.
    set (r := initialState env).
    set (w1 := snd (fetchBranches env net r (initialWorld env))).
    destruct (fetchBranches_log env net r (initialWorld env)) as [rp1 Hlog1].
    fold w1 in Hlog1.
    match goal with
    | |- context [fetchBranches env net r ?w2] =>
        destruct (fetchBranches_log env net r w2) as [rp2 Hlog2]
    end.
    exists rp2, rp1. rewrite Hlog2. simpl. rewrite Hlog1. reflexivity.
Qed.

(** ** Sessions of the page *)

Lemma runUI_snoc (env : Env) (net : Network) (evs : list Event) (ev : Event)
    (w : World) :
  runUI env net (evs ++ [ev]) w = stepUI env net ev (runUI env net evs w).
Proof. unfold runUI. by rewrite fold_left_app. Qed.

(** Edit mode is entered through the edit buttons, which need a token. *)
Lemma editing_needs_token (env : Env) (net : Network) (evs : list Event) :
  let w := runUI env net evs (initialWorld env) in
  isEditing (state w) = true ->
  token env ≠ [] /\ is_Some (selectedFile (state w)).
Proof.
  induction evs as [|ev evs IH] using rev_ind; [done|].
  rewrite runUI_snoc. simpl in *.
  set (w := runUI env net evs (initialWorld env)) in *.
  unfold stepUI. destruct (rendered env ev (state w)) eqn:Hshown; [|exact IH].
  revert Hshown IH. unfold step.
  destruct ev; unfold_handlers; handler_simpl.
  all: repeat case_match; simpl in *; simplify_eq; try done.
  all: intros Hshown IH He; try done.
  all: try (destruct (IH He) as [Htok [sf Hsf]]; split; [done|];
            try congruence; by eexists).
  all: repeat match goal with
         | H : _ && _ = true |- _ => apply andb_prop in H as [? ?]
         end.
  all: split; [by apply truthy_true|by eexists].
Qed.

(** X10: on the page the guards of the save never fire.  Whenever the Save
    button is there and enabled, a file is selected, a token is configured
    and the commit message has more than white space, so the click goes on
    to encode the text, and for a text that [btoa] accepts it sends the
    PUT. *)
Theorem save_button_passes_guards (env : Env) (net : Network) (evs : list Event) :
  let w := runUI env net evs (initialWorld env) in
  rendered env ClickSave (state w) = true ->
  exists selected,
    selectedFile (state w) = Some selected
    /\ token env ≠ []
    /\ Platform.trim (commitMessage (state w)) ≠ []
    /\ forall encodedContent,
         Platform.btoa (btoaErrorMessage env) (contentToSave (state w) (mdxEditorRef w))
           = Return encodedContent ->
         exists later rp,
           exchanges (stepUI env net ClickSave w)
           = later
             ++ mkExchange
                  (PUT_contents (createOctokitInstance env)
                     (commitOf (state w) selected encodedContent)) rp
                :: exchanges w.
Proof.
  intros w Hshown.
  pose proof (editing_needs_token env net evs) as Hinv. simpl in Hinv.
  fold w in Hinv.
  unfold stepUI. rewrite Hshown. simpl in Hshown.
  apply andb_prop in Hshown as [Hshown Hon].
  apply andb_prop in Hshown as [_ Hedit].
  destruct (Hinv Hedit) as [Htok [selected Hsel]].
  apply negb_true_iff, orb_false_elim in Hon as [_ Hmsg].
  apply negb_false_iff, truthy_true in Hmsg.
  exists selected. repeat split; try done.
  intros enc Henc.
  destruct (saveFileContent_put env net (state w) w selected enc)
    as (later & rp & Hlog & _); try done.
  by exists later, rp.
Qed.

Lemma save_button_passes_guards_witness :
  let w := runUI Sample.env Sample.net
             [RunInitialLoad; RunBranchChanged; RunAutoFetch;
              ClickTreeItem Sample.post; ClickEdit false;
              ChangeSource (js "Hello!")] (initialWorld Sample.env) in
  exists selected, selectedFile (state w) = Some selected.
Proof.
  intros w.
  destruct (save_button_passes_guards Sample.env Sample.net
              [RunInitialLoad; RunBranchChanged; RunAutoFetch;
               ClickTreeItem Sample.post; ClickEdit false;
               ChangeSource (js "Hello!")]) as (selected & Hsel & _).
  - vm_compute. reflexivity.
  - by exists selected.
Defined.

(** ** Witnesses of the save lemmas *)

Lemma saved_text_is_shown_witness :
  let served :=
    {| GitHubFileResponse.name := js "post.mdx";
       GitHubFileResponse.path := js "content/post.mdx";
       GitHubFileResponse.type := file;
       GitHubFileResponse.content := Some (js "SGVs" ++ [10] ++ js "bG8h" ++ [10]);
       GitHubFileResponse.encoding := Some (js "base64");
       GitHubFileResponse.size := 6;
       GitHubFileResponse.sha := js "f2" |} in
  let api :=
    {| net_listBranches := net_listBranches Sample.net;
       net_getContent := fun _ _ _ => Return (Single served);
       net_createOrUpdateFileContents := fun _ _ _ => Return tt |} in
  selectedFile
    (state (snd (saveFileContent Sample.env api (state Sample.editing)
                   Sample.editing)))
  = Some (fileContentOf served (js "Hello!")).
Proof.
  intros served api.
  refine (saved_text_is_shown Sample.env api (state Sample.editing)
            Sample.editing (fileContentOf Sample.postResponse (js "Hello"))
            (js "SGVsbG8h") (js "SGVs" ++ [10] ++ js "bG8h" ++ [10]) served
            _ _ _ _ _ _ _ _ _ _).
  - vm_compute. reflexivity.
  - vm_compute. discriminate.
  - vm_compute. discriminate.
  - vm_compute. reflexivity.
  - reflexivity.
  - reflexivity.
  - reflexivity.
  - reflexivity.
  - vm_compute. reflexivity.
  - reflexivity.
Defined.

Lemma saveFileContent_unencodable_witness :
  let r := with_editedContent [10024] (state Sample.editing) in
  let w' := snd (saveFileContent Sample.env Sample.net r Sample.editing) in
  exchanges w' = exchanges Sample.editing
  /\ error (state w') = Some (btoaErrorMessage Sample.env).
Proof.
  intros r w'.
  destruct (saveFileContent_unencodable Sample.env Sample.net r Sample.editing
              (fileContentOf Sample.postResponse (js "Hello")))
    as (Hlog & Herror & _); [| | | |by split].
  - vm_compute. reflexivity.
  - vm_compute. discriminate.
  - vm_compute. discriminate.
  - vm_compute. reflexivity.
Defined.

(** ** Names, pieces and icons *)

Lemma split_nonempty (sep : N) (s : JsString) : Text.split sep s ≠ [].
Proof.
  destruct s as [|c s]; simpl; [done|].
  destruct (c =? sep); [done|]. by destruct (Text.split sep s).
Qed.

Lemma split_app (sep : N) (a b : JsString) :
  Text.split sep (a ++ sep :: b) = Text.split sep a ++ Text.split sep b.
Proof.
  induction a as [|c a IH]; simpl.
  - by rewrite N.eqb_refl.
  - rewrite IH. destruct (c =? sep); [done|].
    pose proof (split_nonempty sep a) as Hne.
    by destruct (Text.split sep a).
Qed.

Lemma split_whole (sep : N) (s : JsString) :
  sep ∉ s -> Text.split sep s = [s].
Proof.
  induction s as [|c s IH]; simpl; [done|].
  intros Hnot. apply not_elem_of_cons in Hnot as [Hc Hs].
  rewrite IH by done. destruct (N.eqb_spec c sep); [congruence|done].
Qed.

Lemma join_split (sep : N) (s : JsString) :
  Text.join sep (Text.split sep s) = s.
Proof.
  induction s as [|c s IH]; simpl; [done|].
  destruct (N.eqb_spec c sep) as [->|Hc].
  - pose proof (split_nonempty sep s) as Hne.
    simpl. destruct (Text.split sep s) eqn:Hs; [done|]. by rewrite IH.
  - pose proof (split_nonempty sep s) as Hne.
    destruct (Text.split sep s) as [|piece [|next pieces]]; [done| |].
    + simpl in *. by rewrite IH.
    + simpl in *. by rewrite IH.
Qed.

Lemma pop_split_last (stem extension : JsString) :
  46 ∉ extension ->
  Text.pop (Text.split 46 (stem ++ 46 :: extension)) = Some extension.
Proof.
  intros Hnot. unfold Text.pop.
  rewrite split_app, (split_whole _ _ Hnot). apply last_snoc.
Qed.

Lemma isMdxFile_shape (name : JsString) :
  isMdxFile name = true
  <-> exists x d m rest,
        rev name = x :: d :: m :: 46 :: rest
        /\ (x = 120 \/ x = 88) /\ (d = 100 \/ d = 68) /\ (m = 109 \/ m = 77).
Proof.
  unfold isMdxFile.
  destruct (rev name) as [|x [|d [|m [|dot rest]]]].
  1-4: split; [done|by intros (? & ? & ? & ? & ? & _)].
  split.
  - intros H. apply andb_prop in H as [H Hdot].
    apply andb_prop in H as [H Hm]. apply andb_prop in H as [Hx Hd].
    apply N.eqb_eq in Hdot as ->.
    exists x, d, m, rest. split; [done|].
    repeat split.
    all: match goal with
         | H : (_ =? _) || (_ =? _) = true |- _ \/ _ =>
             apply orb_prop in H as [H|H]; apply N.eqb_eq in H; auto; fail
         end.
  - intros (x' & d' & m' & rest' & [= -> -> -> -> ->] & Hx & Hd & Hm).
    destruct Hx as [-> | ->], Hd as [-> | ->], Hm as [-> | ->]; reflexivity.
Qed.

(** X11: the icon of an item.  A directory shows the folder icon whatever
    its name; the icon of a file is decided by the text after its last dot
    alone (a name without a dot counts as its own extension); and every file
    that the page treats as MDX shows the MDX icon. *)
Theorem getFileIcon_by_extension (name stem extension : JsString) :
  getFileIcon name dir = Icon.folder
  /\ (46 ∉ extension ->
      getFileIcon (stem ++ 46 :: extension) file = getFileIcon extension file)
  /\ (isMdxFile name = true -> getFileIcon name file = Icon.mdx).
Proof.
  split; [done|]. split.
  - intros Hnot. unfold getFileIcon.
    rewrite (pop_split_last _ _ Hnot).
    unfold Text.pop. by rewrite (split_whole _ _ Hnot).
  - intros (x & d & m & rest & Hrev & Hx & Hd & Hm)%isMdxFile_shape.
    assert (name = rev rest ++ 46 :: [m; d; x]) as ->.
    { rewrite <- (rev_involutive name), Hrev. simpl.
      by rewrite <- !app_assoc. }
    unfold getFileIcon. rewrite pop_split_last.
    + destruct Hx as [-> | ->], Hd as [-> | ->], Hm as [-> | ->]; reflexivity.
    + destruct Hx as [-> | ->], Hd as [-> | ->], Hm as [-> | ->];
        rewrite !not_elem_of_cons; repeat split; try done;
        apply not_elem_of_nil.
Qed.

Lemma getFileIcon_by_extension_witness :
  getFileIcon (js "notes.draft.MdX") file = Icon.mdx
  /\ getFileIcon (js "archive.tar.JS") file = getFileIcon (js "JS") file.
Proof.
  destruct (getFileIcon_by_extension (js "notes.draft.MdX")
              (js "archive.tar") (js "JS")) as (_ & Hext & Hmdx).
  split.
  - apply Hmdx. reflexivity.
  - apply Hext. vm_compute. intros H. inversion H as [|? ? ? H1]; subst.
    inversion H1 as [|? ? ? H2]; subst. inversion H2.
Defined.

Lemma suffix_four (a b c d : N) (l : list N) :
  [a; b; c; d] `suffix_of` l <-> exists k, rev l = d :: c :: b :: a :: k.
Proof.
  split.
  - intros [k ->]. exists (rev k). by rewrite rev_app_distr.
  - intros [k Hk]. exists (rev k).
    rewrite <- (rev_involutive l), Hk. simpl. by rewrite <- !app_assoc.
Qed.

Lemma rev_toLowerCase (s : JsString) :
  rev (Text.toLowerCase s)
  = flat_map (fun c => rev (Text.lowerUnit c)) (rev s).
Proof.
  unfold Text.toLowerCase. induction s as [|c s IH]; simpl; [done|].
  rewrite rev_app_distr, IH, flat_map_app. simpl. by rewrite app_nil_r.
Qed.

(** The reversed lower case of a unit starts with a given unit, which is
    neither a capital nor one of the units of the two special cases, exactly
    when the unit is the given one or its capital. *)
Lemma lowerUnit_head (c t : N) (K k : list N) :
  t < 65 \/ 90 < t -> t ≠ 107 -> t ≠ 105 -> t ≠ 775 -> t ≠ 8490 -> t ≠ 304 ->
  rev (Text.lowerUnit c) ++ K = t :: k
  <-> (c = t \/ c + 32 = t /\ 65 <= c <= 90) /\ K = k.
Proof.
  intros Hrange Hk Hi Hdot Hkelvin Hcap. unfold Text.lowerUnit.
  destruct (N.leb_spec 65 c), (N.leb_spec c 90); simpl.
  2-4: destruct (N.eqb_spec c 8490); [|destruct (N.eqb_spec c 304)]; simpl.
  all: split; [intros [= <- <-]|intros [[->|[<- ?]] ->]]; try done; try lia.
  all: split; [|done]; auto; lia.
Qed.

(** X12: the test for MDX files is the source's
    [fileName.toLowerCase().endsWith('.mdx')]: a name passes exactly when
    its last four code units are a dot and the letters m, d, x in either
    case. *)
Theorem isMdxFile_endsWith (name : JsString) :
  isMdxFile name = endsWithMdx name
  /\ (isMdxFile name = true
      <-> exists stem m d x,
            name = stem ++ [46; m; d; x]
            /\ (m = 109 \/ m = 77) /\ (d = 100 \/ d = 68)
            /\ (x = 120 \/ x = 88)).
Proof.
  assert (isMdxFile name = true <-> endsWithMdx name = true) as Hiff.
  { rewrite isMdxFile_shape. unfold endsWithMdx.
    rewrite bool_decide_eq_true.
    change (js ".mdx") with [46; 109; 100; 120].
    rewrite suffix_four. setoid_rewrite rev_toLowerCase.
    destruct (rev name) as [|x [|d [|m [|dot rest]]]]; simpl.
    - split; [by intros (? & ? & ? & ? & ? & _)|by intros [? ?]].
    - split; [by intros (? & ? & ? & ? & ? & _)|].
      intros [k Hk]. rewrite app_nil_r in Hk. change (?a :: ?b) with ([a] ++ b) in Hk.
      exfalso. revert Hk. unfold Text.lowerUnit.
      repeat case_match; simpl; intros; simplify_eq.
    - split; [by intros (? & ? & ? & ? & ? & _)|].
      intros [k Hk]. apply lowerUnit_head in Hk as [_ Hk]; try lia.
      rewrite app_nil_r in Hk. exfalso. revert Hk. unfold Text.lowerUnit.
      repeat case_match; simpl; intros; simplify_eq.
    - split; [by intros (? & ? & ? & ? & ? & _)|].
      intros [k Hk]. apply lowerUnit_head in Hk as [_ Hk]; try lia.
      apply lowerUnit_head in Hk as [_ Hk]; try lia.
      rewrite app_nil_r in Hk. exfalso. revert Hk. unfold Text.lowerUnit.
      repeat case_match; simpl; intros; simplify_eq.
    - split.
      + intros (x' & d' & m' & rest' & [= <- <- <- -> <-] & Hx & Hd & Hm).
        eexists. apply lowerUnit_head; try lia. split; [lia|].
        apply lowerUnit_head; try lia. split; [lia|].
        apply lowerUnit_head; try lia. split; [lia|].
        apply lowerUnit_head; try lia. split; [lia|reflexivity].
      + intros [k Hk].
        apply lowerUnit_head in Hk as [Hx Hk]; try lia.
        apply lowerUnit_head in Hk as [Hd Hk]; try lia.
        apply lowerUnit_head in Hk as [Hm Hk]; try lia.
        apply lowerUnit_head in Hk as [Hdot Hk]; try lia.
        assert (dot = 46) as -> by lia.
        exists x, d, m, rest. repeat split; lia. }
  split.
  - destruct (isMdxFile name), (endsWithMdx name); try done.
    + symmetry. by apply Hiff.
    + by apply Hiff.
  - rewrite isMdxFile_shape. split.
    + intros (x & d & m & rest & Hrev & Hx & Hd & Hm).
      exists (rev rest), m, d, x. repeat split; try done.
      rewrite <- (rev_involutive name), Hrev. simpl. by rewrite <- !app_assoc.
    + intros (stem & m & d & x & -> & Hm & Hd & Hx).
      exists x, d, m, (rev stem). repeat split; try done.
      by rewrite rev_app_distr.
Qed.

Lemma isMdxFile_endsWith_witness :
  isMdxFile (js "Post.MDX") = true.
Proof.
  apply (isMdxFile_endsWith (js "Post.MDX")).
  exists (js "Post"), 77, 68, 88. repeat split; auto.
Defined.

(** * Editing *)

(** X17: Cancel discards an edit.  With a file selected, opening the editor,
    typing a text and a commit message, cancelling and opening the editor
    again gives the file's own text and the default message [Update <name>]
    back; nothing of this reaches the API or changes the file, the tree or
    the banner. *)
Theorem cancel_discards_edit (env : Env) (net : Network) (w : World)
    (selected : FileContent.t) (first again : bool) (text message : JsString) :
  selectedFile (state w) = Some selected ->
  let cancelled :=
    run env net
      [ClickEdit first; ChangeSource text; ChangeCommitMessage message;
       ClickCancel] w in
  let w' := step env net (ClickEdit again) cancelled in
  (isEditing (state cancelled) = false
   /\ editedContent (state cancelled) = []
   /\ commitMessage (state cancelled) = [])
  /\ isEditing (state w') = true
  /\ isMdxEditorMode (state w') = again
  /\ editedContent (state w') = FileContent.content selected
  /\ commitMessage (state w') = js "Update " ++ FileContent.name selected
  /\ selectedFile (state w') = Some selected
  /\ files (state w') = files (state w)
  /\ folderContents (state w') = folderContents (state w)
  /\ error (state w') = error (state w)
  /\ exchanges w' = exchanges w.
Proof.
  intros Hsel cancelled w'. subst w' cancelled.
  unfold run, step. simpl. unfold startEditing, cancelEditing.
  rewrite Hsel. handler_simpl.
  repeat case_match; simpl in *; simplify_eq; rewrite ?Hsel; simpl; done.
Qed.

Lemma cancel_discards_edit_witness :
  let w := Sample.loaded in
  let clicked := step Sample.env Sample.net (ClickTreeItem Sample.post) w in
  editedContent
    (state (step Sample.env Sample.net (ClickEdit false)
              (run Sample.env Sample.net
                 [ClickEdit false; ChangeSource (js "draft");
                  ChangeCommitMessage (js "wip"); ClickCancel] clicked)))
  = js "Hello".
Proof.
  intros w clicked.
  refine (proj1 (proj2 (proj2 (proj2
    (cancel_discards_edit Sample.env Sample.net clicked
       (fileContentOf Sample.postResponse (js "Hello")) false false
       (js "draft") (js "wip") _))))).
  vm_compute. reflexivity.
Defined.

(** * The flat explorer *)

Ltac explorer_simpl :=
  unfold PathExplorer.fetchRepoContents, PathExplorer.fetchFileContent,
    PathExplorer.getContent, PathExplorer.tryCatchFinally, PathExplorer.bind,
    PathExplorer.ret, PathExplorer.lift, PathExplorer.setFiles,
    PathExplorer.setSelectedFile, PathExplorer.setCurrentPath,
    PathExplorer.setLoading, PathExplorer.setError,
    PathExplorer.setBreadcrumbs, PathExplorer.setOwner, PathExplorer.setRepo,
    PathExplorer.modify in *;
  simpl in *.

(** What a directory load does, by the answer to its request. *)
Lemma explorer_fetchRepoContents_run (env : Env) (net : PathExplorer.Network)
    (r : PathExplorer.State) (path : JsString) (w : PathExplorer.World) :
  let rq := PathExplorer.requestOf env r path in
  let w' := snd (PathExplorer.fetchRepoContents env net r path w) in
  (exists later,
     PathExplorer.exchanges w'
     = later ++ PathExplorer.mkExchange rq (net (PathExplorer.exchanges w) rq)
                :: PathExplorer.exchanges w)
  /\ PathExplorer.loading (PathExplorer.state w') = false
  /\ match net (PathExplorer.exchanges w) rq with
     | Return (Listing l) =>
         PathExplorer.files (PathExplorer.state w') = l
         /\ PathExplorer.currentPath (PathExplorer.state w') = path
         /\ PathExplorer.breadcrumbs (PathExplorer.state w')
            = (if truthy path then Text.split 47 path else [])
         /\ PathExplorer.selectedFile (PathExplorer.state w')
            = PathExplorer.selectedFile (PathExplorer.state w)
         /\ PathExplorer.error (PathExplorer.state w') = None
     | Return (Single _) =>
         PathExplorer.files (PathExplorer.state w')
         = PathExplorer.files (PathExplorer.state w)
         /\ PathExplorer.currentPath (PathExplorer.state w')
            = PathExplorer.currentPath (PathExplorer.state w)
         /\ PathExplorer.breadcrumbs (PathExplorer.state w')
            = PathExplorer.breadcrumbs (PathExplorer.state w)
     | Throw e =>
         PathExplorer.files (PathExplorer.state w')
         = PathExplorer.files (PathExplorer.state w)
         /\ PathExplorer.currentPath (PathExplorer.state w')
            = PathExplorer.currentPath (PathExplorer.state w)
         /\ PathExplorer.breadcrumbs (PathExplorer.state w')
            = PathExplorer.breadcrumbs (PathExplorer.state w)
         /\ PathExplorer.selectedFile (PathExplorer.state w')
            = PathExplorer.selectedFile (PathExplorer.state w)
         /\ PathExplorer.error (PathExplorer.state w')
            = Some (errorMessage e (js "Failed to fetch repository contents"))
     end.
Proof.
  explorer_simpl.
  destruct (net _ _) as [[l|fd]|e]; simpl.
  - split; [by exists []|done].
  - repeat case_match; simpl in *; simplify_eq.
    all: split; [first [by exists [] | by eexists [_]]|done].
  - split; [by exists []|done].
Qed.

(** X13: a directory load either moves or stays.  When the listing arrives
    it replaces the file list, the current path becomes the requested path
    and the breadcrumbs become its pieces (none for the root), with the
    banner empty; when the request fails the file list, the current path
    and the breadcrumbs stay as they were and the banner shows the error.
    The spinner is off afterwards in both cases. *)
Theorem explorer_load_moves_or_stays (env : Env) (net : PathExplorer.Network)
    (r : PathExplorer.State) (path : JsString) (w : PathExplorer.World) :
  let rq := PathExplorer.requestOf env r path in
  let w' := snd (PathExplorer.fetchRepoContents env net r path w) in
  PathExplorer.loading (PathExplorer.state w') = false
  /\ (forall l,
        net (PathExplorer.exchanges w) rq = Return (Listing l) ->
        PathExplorer.files (PathExplorer.state w') = l
        /\ PathExplorer.currentPath (PathExplorer.state w') = path
        /\ PathExplorer.breadcrumbs (PathExplorer.state w')
           = (if truthy path then Text.split 47 path else [])
        /\ PathExplorer.error (PathExplorer.state w') = None)
  /\ (forall e,
        net (PathExplorer.exchanges w) rq = Throw e ->
        PathExplorer.files (PathExplorer.state w')
        = PathExplorer.files (PathExplorer.state w)
        /\ PathExplorer.currentPath (PathExplorer.state w')
           = PathExplorer.currentPath (PathExplorer.state w)
        /\ PathExplorer.breadcrumbs (PathExplorer.state w')
           = PathExplorer.breadcrumbs (PathExplorer.state w)
        /\ PathExplorer.error (PathExplorer.state w')
           = Some (errorMessage e (js "Failed to fetch repository contents"))).
Proof.
  intros rq w'.
  destruct (explorer_fetchRepoContents_run env net r path w)
    as (_ & Hload & Hrun).
  fold rq w' in Hload, Hrun.
  split; [exact Hload|]. split.
  - intros l Hl. rewrite Hl in Hrun. tauto.
  - intros e He. rewrite He in Hrun. tauto.
Qed.

Lemma explorer_load_moves_or_stays_witness :
  let w := PathExplorer.initialWorld in
  let w' := snd (PathExplorer.fetchRepoContents Sample.env
                   PathExplorer.sampleNet (PathExplorer.state w)
                   (js "content/docs") w) in
  PathExplorer.currentPath (PathExplorer.state w') = js "content/docs"
  /\ PathExplorer.breadcrumbs (PathExplorer.state w')
     = [js "content"; js "docs"].
Proof.
  intros w w'.
  destruct (explorer_load_moves_or_stays Sample.env PathExplorer.sampleNet
              (PathExplorer.state w) (js "content/docs") w)
    as (_ & Hmove & _).
  destruct (Hmove [] eq_refl) as (_ & Hpath & Hcrumbs & _).
  split; [exact Hpath|exact Hcrumbs].
Defined.

Lemma explorer_run_snoc (env : Env) (net : PathExplorer.Network)
    (evs : list PathExplorer.Event) (ev : PathExplorer.Event)
    (w : PathExplorer.World) :
  PathExplorer.run env net (evs ++ [ev]) w
  = PathExplorer.step env net ev (PathExplorer.run env net evs w).
Proof. unfold PathExplorer.run. by rewrite fold_left_app. Qed.

Lemma explorer_fetchFileContent_frame (env : Env) (net : PathExplorer.Network)
    (r : PathExplorer.State) (path : JsString) (w : PathExplorer.World) :
  let w' := snd (PathExplorer.fetchFileContent env net r path w) in
  PathExplorer.files (PathExplorer.state w')
  = PathExplorer.files (PathExplorer.state w)
  /\ PathExplorer.currentPath (PathExplorer.state w')
     = PathExplorer.currentPath (PathExplorer.state w)
  /\ PathExplorer.breadcrumbs (PathExplorer.state w')
     = PathExplorer.breadcrumbs (PathExplorer.state w).
Proof.
  explorer_simpl. repeat case_match; simpl in *; simplify_eq; done.
Qed.

Lemma explorer_load_keeps_crumbs (env : Env) (net : PathExplorer.Network)
    (r : PathExplorer.State) (path : JsString) (w : PathExplorer.World) :
  PathExplorer.crumbsOfPath w ->
  PathExplorer.crumbsOfPath
    (snd (PathExplorer.fetchRepoContents env net r path w)).
Proof.
  unfold PathExplorer.crumbsOfPath. intros Hinv.
  destruct (explorer_fetchRepoContents_run env net r path w)
    as (_ & _ & Hrun).
  simpl in Hrun. destruct (net _ _) as [[l|fd]|e].
  - destruct Hrun as (_ & -> & -> & _). done.
  - destruct Hrun as (_ & -> & ->). exact Hinv.
  - destruct Hrun as (_ & -> & -> & _). exact Hinv.
Qed.

Lemma explorer_crumbs_step (env : Env) (net : PathExplorer.Network)
    (ev : PathExplorer.Event) (w : PathExplorer.World) :
  PathExplorer.crumbsOfPath w ->
  PathExplorer.crumbsOfPath (PathExplorer.step env net ev w).
Proof.
  intros Hinv. unfold PathExplorer.step.
  destruct ev; simpl; unfold PathExplorer.handleFolderClick,
    PathExplorer.handleFileClick, PathExplorer.handleBreadcrumbClick,
    PathExplorer.goBack.
  - destruct (_ && _); [by apply explorer_load_keeps_crumbs|exact Hinv].
  - exact Hinv.
  - exact Hinv.
  - destruct (PathExplorer.loading _);
      [exact Hinv|by apply explorer_load_keeps_crumbs].
  - case_bool_decide; [exact Hinv|by apply explorer_load_keeps_crumbs].
  - case_bool_decide; [|exact Hinv].
    destruct (RepoFile.type f); [|by apply explorer_load_keeps_crumbs].
    unfold PathExplorer.crumbsOfPath in *.
    destruct (explorer_fetchFileContent_frame env net (PathExplorer.state w)
                (RepoFile.path f) w) as (_ & -> & ->).
    exact Hinv.
  - case_bool_decide; [exact Hinv|].
    case_bool_decide; [by apply explorer_load_keeps_crumbs|exact Hinv].
  - case_bool_decide; [exact Hinv|].
    case_bool_decide; [exact Hinv|by apply explorer_load_keeps_crumbs].
Qed.

Lemma split_pieces (sep : N) (s : JsString) :
  Forall (fun piece => sep ∉ piece) (Text.split sep s).
Proof.
  induction s as [|c s IH]; simpl.
  - repeat constructor. apply not_elem_of_nil.
  - destruct (N.eqb_spec c sep) as [->|Hc].
    + constructor; [apply not_elem_of_nil|exact IH].
    + destruct (Text.split sep s) as [|piece pieces]; simpl.
      * repeat constructor. rewrite not_elem_of_cons. split; [done|].
        apply not_elem_of_nil.
      * inversion_clear IH as [|? ? Hpiece Hrest]. constructor; [|done].
        rewrite not_elem_of_cons. split; done.
Qed.

Lemma explorer_crumbs_session (env : Env) (net : PathExplorer.Network)
    (evs : list PathExplorer.Event) :
  PathExplorer.crumbsOfPath
    (PathExplorer.run env net evs PathExplorer.initialWorld).
Proof.
  induction evs as [|ev evs IH] using rev_ind; [done|].
  rewrite explorer_run_snoc. by apply explorer_crumbs_step.
Qed.

(** X14: in every session the breadcrumbs are the pieces of the current
    path between its slashes, none at the root: joined with slashes they
    give the current path back, and no crumb has a slash in it. *)
Theorem explorer_breadcrumbs_follow_path (env : Env)
    (net : PathExplorer.Network) (evs : list PathExplorer.Event) :
  let w := PathExplorer.run env net evs PathExplorer.initialWorld in
  Text.join 47 (PathExplorer.breadcrumbs (PathExplorer.state w))
  = PathExplorer.currentPath (PathExplorer.state w)
  /\ Forall (fun crumb => 47 ∉ crumb)
       (PathExplorer.breadcrumbs (PathExplorer.state w))
  /\ (PathExplorer.breadcrumbs (PathExplorer.state w) = []
      <-> PathExplorer.currentPath (PathExplorer.state w) = []).
Proof.
  intros w.
  pose proof (explorer_crumbs_session env net evs) as Hinv.
  fold w in Hinv. unfold PathExplorer.crumbsOfPath in Hinv. rewrite Hinv.
  destruct (PathExplorer.currentPath (PathExplorer.state w)) as [|c p] eqn:Hp;
    simpl truthy; cbv iota.
  - repeat split; done.
  - rewrite join_split. split; [done|]. split; [apply split_pieces|].
    split; [|done]. intros Hnil. by destruct (split_nonempty 47 (c :: p)).
Qed.

Lemma removelast_split (parent name : JsString) :
  47 ∉ name ->
  removelast (Text.split 47 (parent ++ 47 :: name)) = Text.split 47 parent.
Proof.
  intros Hname. rewrite split_app, (split_whole _ _ Hname).
  apply removelast_last.
Qed.

Lemma join_take_prefix (sep : N) (pieces : list JsString) (n : nat) :
  Text.join sep (take n pieces) `prefix_of` Text.join sep pieces.
Proof.
  revert n. induction pieces as [|a pieces IH]; intros n.
  - by rewrite take_nil.
  - destruct n as [|n]; [apply prefix_nil|].
    destruct pieces as [|b rest]; [simpl; by rewrite take_nil|].
    destruct n as [|n].
    + simpl. by apply prefix_app_r.
    + specialize (IH (S n)).
      change (take (S (S n)) (a :: b :: rest))
        with (a :: b :: take n rest).
      change (Text.join sep (a :: b :: take n rest))
        with (a ++ sep :: Text.join sep (b :: take n rest)).
      change (Text.join sep (a :: b :: rest))
        with (a ++ sep :: Text.join sep (b :: rest)).
      apply prefix_app, prefix_cons. exact IH.
Qed.

(** The request and the landing place of a navigation to [target]. *)
Lemma explorer_navigates (env : Env) (net : PathExplorer.Network)
    (w : PathExplorer.World) (target : JsString) :
  let rq := PathExplorer.requestOf env (PathExplorer.state w) target in
  let w' := snd (PathExplorer.fetchRepoContents env net
                   (PathExplorer.state w) target w) in
  (exists later,
     PathExplorer.exchanges w'
     = later ++ PathExplorer.mkExchange rq (net (PathExplorer.exchanges w) rq)
                :: PathExplorer.exchanges w)
  /\ forall l,
       net (PathExplorer.exchanges w) rq = Return (Listing l) ->
       PathExplorer.currentPath (PathExplorer.state w') = target
       /\ PathExplorer.files (PathExplorer.state w') = l.
Proof.
  intros rq w'.
  destruct (explorer_fetchRepoContents_run env net (PathExplorer.state w)
              target w) as (Hlog & _ & Hrun).
  fold rq w' in Hlog, Hrun. split; [exact Hlog|].
  intros l Hl. rewrite Hl in Hrun. tauto.
Qed.

(** X15: Back goes to the parent directory.  In every session, while the
    directory shown is not empty (the Back button is rendered with the file
    list) and the current path is [parent/name], the Back button requests
    [parent], and when the current path has no slash it requests the root;
    the listing in answer becomes the file list and the requested path the
    current path. *)
Theorem explorer_back_goes_up (env : Env) (net : PathExplorer.Network)
    (evs : list PathExplorer.Event) (parent name : JsString) :
  let w := PathExplorer.run env net evs PathExplorer.initialWorld in
  let w' := PathExplorer.step env net PathExplorer.ClickBack w in
  PathExplorer.files (PathExplorer.state w) ≠ [] ->
  47 ∉ name ->
  PathExplorer.currentPath (PathExplorer.state w) = parent ++ 47 :: name
  \/ (PathExplorer.currentPath (PathExplorer.state w) = name
      /\ name ≠ [] /\ parent = []) ->
  let rq := PathExplorer.requestOf env (PathExplorer.state w) parent in
  (exists later,
     PathExplorer.exchanges w'
     = later ++ PathExplorer.mkExchange rq (net (PathExplorer.exchanges w) rq)
                :: PathExplorer.exchanges w)
  /\ forall l,
       net (PathExplorer.exchanges w) rq = Return (Listing l) ->
       PathExplorer.currentPath (PathExplorer.state w') = parent
       /\ PathExplorer.files (PathExplorer.state w') = l.
Proof.
  intros w w' Hfiles Hname Hpath rq.
  pose proof (explorer_crumbs_session env net evs) as Hinv.
  fold w in Hinv. unfold PathExplorer.crumbsOfPath in Hinv.
  assert (PathExplorer.breadcrumbs (PathExplorer.state w) ≠ []
          /\ Text.join 47 (removelast (PathExplorer.breadcrumbs
                                         (PathExplorer.state w)))
             = parent) as [Hsome Hparent].
  { rewrite Hinv. destruct Hpath as [->|(-> & Hne & ->)].
    - assert (truthy (parent ++ 47 :: name) = true) as ->
        by (by destruct parent).
      split; [apply split_nonempty|].
      by rewrite (removelast_split _ _ Hname), join_split.
    - apply truthy_true in Hne. rewrite Hne.
      by rewrite (split_whole _ _ Hname). }
  subst w' rq. unfold PathExplorer.step. simpl.
  rewrite (bool_decide_eq_false_2 _ Hfiles), (bool_decide_eq_false_2 _ Hsome).
  unfold PathExplorer.goBack. rewrite Hparent.
  apply explorer_navigates.
Qed.

Lemma explorer_back_goes_up_witness :
  let w := PathExplorer.run Sample.env PathExplorer.filledNet
             [PathExplorer.Mount; PathExplorer.ClickItem Sample.contentDir;
              PathExplorer.ClickItem Sample.docsDir]
             PathExplorer.initialWorld in
  let w' := PathExplorer.step Sample.env PathExplorer.filledNet
              PathExplorer.ClickBack w in
  PathExplorer.files (PathExplorer.state w) = [PathExplorer.guide]
  /\ PathExplorer.currentPath (PathExplorer.state w') = js "content"
  /\ PathExplorer.files (PathExplorer.state w')
     = [Sample.docsDir; Sample.post].
Proof.
  intros w w'.
  assert (47 ∉ js "docs") as Hname.
  { by intros [?|[?|[?|[?|[]]]]]%list_elem_of_In. }
  assert (PathExplorer.files (PathExplorer.state w) = [PathExplorer.guide])
    as Hfiles by (vm_compute; reflexivity).
  split; [exact Hfiles|].
  destruct (explorer_back_goes_up Sample.env PathExplorer.filledNet
              [PathExplorer.Mount; PathExplorer.ClickItem Sample.contentDir;
               PathExplorer.ClickItem Sample.docsDir]
              (js "content") (js "docs")) as [_ Hland].
  - fold w. rewrite Hfiles. discriminate.
  - exact Hname.
  - left. vm_compute. reflexivity.
  - apply Hland. vm_compute. reflexivity.
Defined.

(** X16: a breadcrumb leads to a prefix of the current path.  In every
    session, while the directory shown is not empty (the breadcrumbs are
    rendered with the file list), the crumb at [index] requests the path
    made of the first [index + 1] crumbs, which is a prefix of the current
    path, and the last crumb requests the current path itself; the listing
    in answer makes the requested path the current path. *)
Theorem explorer_breadcrumb_goes_to_prefix (env : Env)
    (net : PathExplorer.Network) (evs : list PathExplorer.Event)
    (index : nat) :
  let w := PathExplorer.run env net evs PathExplorer.initialWorld in
  let w' := PathExplorer.step env net (PathExplorer.ClickBreadcrumb index) w in
  let target :=
    Text.join 47 (take (S index) (PathExplorer.breadcrumbs (PathExplorer.state w))) in
  let rq := PathExplorer.requestOf env (PathExplorer.state w) target in
  PathExplorer.files (PathExplorer.state w) ≠ [] ->
  (index < length (PathExplorer.breadcrumbs (PathExplorer.state w)))%nat ->
  target `prefix_of` PathExplorer.currentPath (PathExplorer.state w)
  /\ (S index = length (PathExplorer.breadcrumbs (PathExplorer.state w)) ->
      target = PathExplorer.currentPath (PathExplorer.state w))
  /\ (exists later,
        PathExplorer.exchanges w'
        = later ++ PathExplorer.mkExchange rq (net (PathExplorer.exchanges w) rq)
                   :: PathExplorer.exchanges w)
  /\ forall l,
       net (PathExplorer.exchanges w) rq = Return (Listing l) ->
       PathExplorer.currentPath (PathExplorer.state w') = target
       /\ PathExplorer.files (PathExplorer.state w') = l.
Proof.
  intros w w' target rq Hfiles Hindex.
  assert (Text.join 47 (PathExplorer.breadcrumbs (PathExplorer.state w))
          = PathExplorer.currentPath (PathExplorer.state w)) as Hjoin.
  { pose proof (explorer_crumbs_session env net evs) as Hinv.
    fold w in Hinv. unfold PathExplorer.crumbsOfPath in Hinv. rewrite Hinv.
    destruct (PathExplorer.currentPath (PathExplorer.state w)) as [|c p];
      [done|].
    change (truthy (c :: p)) with true. cbv iota. apply join_split. }
  split; [|split].
  - rewrite <- Hjoin. apply join_take_prefix.
  - intros Hlast. subst target. rewrite Hlast, firstn_all. exact Hjoin.
  - subst w' rq target. unfold PathExplorer.step. simpl.
    rewrite (bool_decide_eq_false_2 _ Hfiles), (bool_decide_eq_true_2 _ Hindex).
    apply explorer_navigates.
Qed.

Lemma explorer_breadcrumb_goes_to_prefix_witness :
  let w := PathExplorer.run Sample.env PathExplorer.filledNet
             [PathExplorer.Mount; PathExplorer.ClickItem Sample.contentDir;
              PathExplorer.ClickItem Sample.docsDir]
             PathExplorer.initialWorld in
  let w' := PathExplorer.step Sample.env PathExplorer.filledNet
              (PathExplorer.ClickBreadcrumb 0) w in
  PathExplorer.files (PathExplorer.state w) = [PathExplorer.guide]
  /\ PathExplorer.currentPath (PathExplorer.state w) = js "content/docs"
  /\ PathExplorer.currentPath (PathExplorer.state w') = js "content".
Proof.
  intros w w'.
  assert (PathExplorer.files (PathExplorer.state w) = [PathExplorer.guide])
    as Hfiles by (vm_compute; reflexivity).
  split; [exact Hfiles|]. split; [vm_compute; reflexivity|].
  destruct (explorer_breadcrumb_goes_to_prefix Sample.env
              PathExplorer.filledNet
              [PathExplorer.Mount; PathExplorer.ClickItem Sample.contentDir;
               PathExplorer.ClickItem Sample.docsDir] 0)
    as (_ & _ & _ & Hland).
  - fold w. rewrite Hfiles. discriminate.
  - vm_compute. lia.
  - apply (Hland [Sample.docsDir; Sample.post]). vm_compute. reflexivity.
Defined.

(** X21: the navigation controls exist only while the file list is not
    empty.  With an empty list (before the first listing has arrived, after
    a first load that failed, after an empty listing) the root button, the
    breadcrumbs, the Back button and the items are not rendered, so none of
    them does anything.  A load that fails leaves an empty list empty and
    puts the error in the banner; an empty listing in answer empties the
    list and makes the requested path the current path. *)
Theorem explorer_empty_list_hides_navigation (env : Env)
    (net : PathExplorer.Network) (w : PathExplorer.World) (path : JsString) :
  let rq := PathExplorer.requestOf env (PathExplorer.state w) path in
  let w' := snd (PathExplorer.fetchRepoContents env net
                   (PathExplorer.state w) path w) in
  (PathExplorer.files (PathExplorer.state w) = [] ->
   PathExplorer.step env net PathExplorer.ClickBack w = w
   /\ PathExplorer.step env net PathExplorer.ClickRoot w = w
   /\ (forall index,
         PathExplorer.step env net (PathExplorer.ClickBreadcrumb index) w = w)
   /\ (forall f, PathExplorer.step env net (PathExplorer.ClickItem f) w = w))
  /\ (forall e,
        PathExplorer.files (PathExplorer.state w) = [] ->
        net (PathExplorer.exchanges w) rq = Throw e ->
        PathExplorer.files (PathExplorer.state w') = []
        /\ PathExplorer.error (PathExplorer.state w')
           = Some (errorMessage e (js "Failed to fetch repository contents")))
  /\ (net (PathExplorer.exchanges w) rq = Return (Listing []) ->
      PathExplorer.files (PathExplorer.state w') = []
      /\ PathExplorer.currentPath (PathExplorer.state w') = path
      /\ PathExplorer.error (PathExplorer.state w') = None).
Proof.
  intros rq w'.
  destruct (explorer_fetchRepoContents_run env net (PathExplorer.state w)
              path w) as (_ & _ & Hrun).
  fold rq w' in Hrun.
  split; [|split].
  - intros Hfiles. unfold PathExplorer.step. simpl. rewrite Hfiles. simpl.
    repeat split; by destruct w.
  - intros e Hfiles Hnet. rewrite Hnet in Hrun.
    destruct Hrun as (-> & _ & _ & _ & ->). done.
  - intros Hnet. rewrite Hnet in Hrun.
    destruct Hrun as (-> & -> & _ & _ & ->). done.
Qed.

Lemma explorer_empty_list_hides_navigation_witness :
  let unreachable : PathExplorer.Network :=
    fun _ _ => Throw (ErrorObj (js "Network Error")) in
  let w := PathExplorer.step Sample.env unreachable PathExplorer.Mount
             PathExplorer.initialWorld in
  PathExplorer.error (PathExplorer.state w) = Some (js "Network Error")
  /\ PathExplorer.step Sample.env unreachable PathExplorer.ClickBack w = w
  /\ PathExplorer.step Sample.env unreachable PathExplorer.ClickRoot w = w.
Proof.
  intros unreachable w.
  destruct (explorer_empty_list_hides_navigation Sample.env unreachable
              PathExplorer.initialWorld [])
    as (_ & Hfail & _).
  destruct (Hfail (ErrorObj (js "Network Error")) eq_refl eq_refl)
    as [Hfiles Herror].
  split; [exact Herror|].
  destruct (explorer_empty_list_hides_navigation Sample.env unreachable
              w []) as (Hnone & _).
  destruct (Hnone Hfiles) as (Hback & Hroot & _).
  split; [exact Hback|exact Hroot].
Defined.
